(** * Thermocouple conversion engine: a shallow embedding and its properties

    This development embeds the Python package [thermocouples]
    (modules [core], [registry] and the coefficient modules [types.type_b],
    [type_j], [type_n], [type_r], [type_s], [type_t]) and proves the
    properties its specification states about it.

    Modelling decisions.

    - Numbers.  A Python [float] is modelled by a canonical rational [Qc]:
      every finite double is a rational, equality of [Qc] is Leibniz
      equality, and [+], [*], [/], [**] and [<=] are the exact field
      operations.  Rounding, overflow, infinities and NaN are therefore
      outside the model; a decimal literal of the source denotes the
      rational it spells.
    - Exceptions.  A method either returns a value or raises; this is the
      type [result], with [Return] and [Raise] and a bind written
      [x <- c ;; k].  An exception carries its class and its message.  A
      message is the text of the f-string of the source, in which a
      formatted float is kept as the number itself ([Num x]).
    - Objects.  [ThermocoupleType] is a record of the thirteen attributes
      set by [__init__]; an optional argument is an [option], and the
      truth value Python gives to [None], to a list and to a function is
      written out.
    - Modules absent from the sources.  [types.type_e] and [types.type_k]
      are imported by [registry] but their text is not available; their
      tables and the four correction functions of type K are parameters
      of the registry. *)

From Stdlib Require Import QArith Qcanon List String Ascii Bool Arith Lia Lqa.
Import ListNotations.

Set Implicit Arguments.

(** ** Numbers *)

Notation "'float'" := Qc (only parsing).

(** The value of a decimal literal of the source. *)
Definition lit (q : Q) : float := Q2Qc q.

(** [lo <= x], as the boolean the interpreter computes. *)
Definition fle (x y : float) : bool := Qle_bool x y.

(** The builtin [sum] of Python: a left fold of [+] that starts from [0]. *)
Definition sum (l : list float) : float := fold_left Qcplus l (lit 0).

(** The builtin [enumerate]: each element paired with its index from [0]. *)
Definition enumerate (A : Type) (l : list A) : list (nat * A) :=
  combine (seq 0 (List.length l)) l.

(** ** Exceptions and results *)

Inductive fragment : Type :=
| Text (s : string)
| Num (x : float).

Definition message : Type := list fragment.

Inductive exception : Type :=
| ValueError (msg : message)
| NotImplementedError (msg : message).

Inductive result (A : Type) : Type :=
| Return (a : A)
| Raise (e : exception).

Arguments Return {A} a.
Arguments Raise {A} e.

Definition bind (A B : Type) (c : result A) (k : A -> result B) : result B :=
  match c with
  | Return a => k a
  | Raise e => Raise e
  end.

Notation "x <- c ;; k" := (bind c (fun x => k))
  (at level 61, c at next level, right associativity).

(** ** The data of a model: [core.py] *)

(** [tuple[tuple[float, float], list[float]]]: an interval and the
    coefficients that apply on it, lowest power first. *)
Definition entry : Type := (float * float) * list float.

(** [list[tuple[tuple[float, float], list[float]]]]. *)
Definition range_table : Type := list entry.

Record ThermocoupleType : Type := {
  _name : string;
  _temp_to_microvolt : range_table;
  _microvolt_to_temp : range_table;
  _temp_to_seebeck : range_table;
  _temp_to_dsdt : range_table;
  _temp_to_microvolt_pos_leg : option range_table;
  _temp_to_microvolt_neg_leg : option range_table;
  _temp_to_seebeck_pos_leg : option range_table;
  _temp_to_seebeck_neg_leg : option range_table;
  _microvolt_expo_function : option (float -> float);
  _seebeck_expo_function : option (float -> float);
  _dsdt_expo_function : option (float -> float);
  _microvolt_neg_leg_expo_function : option (float -> float)
}.

(** [t or []] for an optional list [t]: [None] and the empty list are
    false, so both give [[]]. *)
Definition or_empty (t : option range_table) : range_table :=
  match t with
  | Some (e :: rest) => e :: rest
  | _ => []
  end.

(** [ThermocoupleType.__init__].  The arguments that default to [None] in
    the source are options here. *)
Definition __init__
    (name : string)
    (temp_to_microvolt microvolt_to_temp : range_table)
    (temp_to_seebeck temp_to_dsdt : option range_table)
    (temp_to_microvolt_pos_leg temp_to_microvolt_neg_leg : option range_table)
    (temp_to_seebeck_pos_leg temp_to_seebeck_neg_leg : option range_table)
    (microvolt_expo_function seebeck_expo_function : option (float -> float))
    (dsdt_expo_function microvolt_neg_leg_expo_function : option (float -> float))
    : ThermocoupleType :=
  {| _name := name;
     _temp_to_microvolt := temp_to_microvolt;
     _microvolt_to_temp := microvolt_to_temp;
     _temp_to_seebeck := or_empty temp_to_seebeck;
     _temp_to_dsdt := or_empty temp_to_dsdt;
     _temp_to_microvolt_pos_leg := temp_to_microvolt_pos_leg;
     _temp_to_microvolt_neg_leg := temp_to_microvolt_neg_leg;
     _temp_to_seebeck_pos_leg := temp_to_seebeck_pos_leg;
     _temp_to_seebeck_neg_leg := temp_to_seebeck_neg_leg;
     _microvolt_expo_function := microvolt_expo_function;
     _seebeck_expo_function := seebeck_expo_function;
     _dsdt_expo_function := dsdt_expo_function;
     _microvolt_neg_leg_expo_function := microvolt_neg_leg_expo_function |}.

(** The message of the [ValueError] of [_select_coeffs]:
    [f"Value {x} out of range for Type {self._name} thermocouple"]. *)
Definition out_of_range_message (x : float) (name : string) : message :=
  [Text "Value "; Num x;
   Text (" out of range for Type " ++ name ++ " thermocouple")%string].

(** [ThermocoupleType._select_coeffs]: the loop over [tables] returns at the
    first entry with [lo <= x <= hi]; the [raise] follows the loop. *)
Fixpoint _select_coeffs (self : ThermocoupleType) (x : float)
    (tables : range_table) : result (list float) :=
  match tables with
  | [] => Raise (ValueError (out_of_range_message x (_name self)))
  | ((lo, hi), coeffs) :: rest =>
      if fle lo x && fle x hi then Return coeffs
      else _select_coeffs self x rest
  end.

(** [ThermocoupleType._polyval]:
    [sum(c * (x**i) for i, c in enumerate(coeffs))]. *)
Definition _polyval (self : ThermocoupleType) (coeffs : list float)
    (x : float) : float :=
  sum (map (fun ic => (snd ic * x ^ fst ic)%Qc) (enumerate coeffs)).

(** [if f: result += f(temp_c)]: a function is true, [None] is false. *)
Definition apply_expo (f : option (float -> float)) (result temp_c : float)
    : float :=
  match f with
  | Some g => (result + g temp_c)%Qc
  | None => result
  end.

(** [ThermocoupleType.temperature_to_voltage]. *)
Definition temperature_to_voltage (self : ThermocoupleType) (temp_c : float)
    : result float :=
  coeffs <- _select_coeffs self temp_c (_temp_to_microvolt self) ;;
  let result := _polyval self coeffs temp_c in
  let result := apply_expo (_microvolt_expo_function self) result temp_c in
  Return (result / lit 1e6)%Qc.

(** [ThermocoupleType.voltage_to_temperature]. *)
Definition voltage_to_temperature (self : ThermocoupleType) (v : float)
    : result float :=
  let microvolt := (v * lit 1e6)%Qc in
  coeffs <- _select_coeffs self microvolt (_microvolt_to_temp self) ;;
  let result := _polyval self coeffs microvolt in
  Return result.

(** The messages of the six [NotImplementedError]s. *)
Definition not_implemented (what name : string) : exception :=
  NotImplementedError
    [Text (what ++ " not implemented for Type " ++ name)%string].

(** [ThermocoupleType.temperature_to_seebeck].  The guard
    [if not self._temp_to_seebeck] is true of the empty list. *)
Definition temperature_to_seebeck (self : ThermocoupleType) (temp_c : float)
    : result float :=
  match _temp_to_seebeck self with
  | [] => Raise (not_implemented "Seebeck coefficient" (_name self))
  | tables =>
      coeffs <- _select_coeffs self temp_c tables ;;
      let result := _polyval self coeffs temp_c in
      let result := apply_expo (_seebeck_expo_function self) result temp_c in
      Return result
  end.

(** [ThermocoupleType.temperature_to_dsdt]. *)
Definition temperature_to_dsdt (self : ThermocoupleType) (temp_c : float)
    : result float :=
  match _temp_to_dsdt self with
  | [] => Raise (not_implemented "dSeebeck/dT" (_name self))
  | tables =>
      coeffs <- _select_coeffs self temp_c tables ;;
      let result := _polyval self coeffs temp_c in
      let result := apply_expo (_dsdt_expo_function self) result temp_c in
      Return result
  end.

(** [ThermocoupleType.temperature_to_volt_pos_leg].  The guard
    [if not self._temp_to_microvolt_pos_leg] is true of [None] and of the
    empty list. *)
Definition temperature_to_volt_pos_leg (self : ThermocoupleType)
    (temp_c : float) : result float :=
  match _temp_to_microvolt_pos_leg self with
  | Some (e :: rest) =>
      coeffs <- _select_coeffs self temp_c (e :: rest) ;;
      let result := _polyval self coeffs temp_c in
      Return (result / lit 1e6)%Qc
  | _ => Raise (not_implemented "Thermovoltage positive leg" (_name self))
  end.

(** [ThermocoupleType.temperature_to_volt_neg_leg]. *)
Definition temperature_to_volt_neg_leg (self : ThermocoupleType)
    (temp_c : float) : result float :=
  match _temp_to_microvolt_neg_leg self with
  | Some (e :: rest) =>
      coeffs <- _select_coeffs self temp_c (e :: rest) ;;
      let result := _polyval self coeffs temp_c in
      let result :=
        apply_expo (_microvolt_neg_leg_expo_function self) result temp_c in
      Return (result / lit 1e6)%Qc
  | _ => Raise (not_implemented "Thermovoltage negative leg" (_name self))
  end.

(** [ThermocoupleType.temperature_to_seebeck_pos_leg]. *)
Definition temperature_to_seebeck_pos_leg (self : ThermocoupleType)
    (temp_c : float) : result float :=
  match _temp_to_seebeck_pos_leg self with
  | Some (e :: rest) =>
      coeffs <- _select_coeffs self temp_c (e :: rest) ;;
      let result := _polyval self coeffs temp_c in
      Return result
  | _ =>
      Raise (not_implemented "Seebeck coefficient positive leg" (_name self))
  end.

(** [ThermocoupleType.temperature_to_seebeck_neg_leg]. *)
Definition temperature_to_seebeck_neg_leg (self : ThermocoupleType)
    (temp_c : float) : result float :=
  match _temp_to_seebeck_neg_leg self with
  | Some (e :: rest) =>
      coeffs <- _select_coeffs self temp_c (e :: rest) ;;
      let result := _polyval self coeffs temp_c in
      Return result
  | _ =>
      Raise (not_implemented "Seebeck coefficient negative leg" (_name self))
  end.

(** [ThermocoupleType.voltage_to_temperature_with_reference]. *)
Definition voltage_to_temperature_with_reference (self : ThermocoupleType)
    (v_measured t_ref : float) : result float :=
  v_ref <- temperature_to_voltage self t_ref ;;
  let v_total := (v_measured + v_ref)%Qc in
  result <- voltage_to_temperature self v_total ;;
  Return result.

(** ** Coefficient tables: [types/type_*.py] *)

(** A table written with the literals of the source. *)
Definition table (rows : list ((Q * Q) * list Q)) : range_table :=
  map (fun row => ((lit (fst (fst row)), lit (snd (fst row))),
                   map lit (snd row))) rows.

Open Scope Q_scope.

(** [types/type_b.py]. *)
Module type_b.

Definition TEMP_TO_MICROVOLT : range_table :=
  table [
    ((0, 630.615),
     [
      0.000000000000e00; -2.465081834600e-01; 5.904042117100e-03;
      -1.325793163600e-06; 1.566829190100e-09; -1.694452924000e-12;
      6.299034709400e-16
     ]);
    ((630.615, 1820),
     [
      -3.893816862100e03; 2.857174747000e-01; -8.488510478500e-05;
      1.578528016400e-04; -1.683534486400e-07; 1.110979401300e-10;
      -4.451543103300e-14; 9.897564082100e-18; -9.379133028900e-22
     ])
  ].

Definition MICROVOLT_TO_TEMP : range_table :=
  table [
    ((291, 2431),
     [
      9.842332100e01; 6.997150000e-01; -8.476530400e-04;
      1.005264400e-06; -8.334595200e-10; 4.550854200e-13;
      -1.552303700e-16; 2.988675000e-20; -2.474286000e-24
     ]);
    ((2431, 13820),
     [
      2.131507100e02; 2.851050400e-01; -5.274288700e-05;
      9.916080400e-09; -1.296530300e-12; 1.119587000e-16;
      -6.062519900e-21; 1.866169600e-25; -2.487858500e-30
     ])
  ].

Definition TEMP_TO_SEEBECK : range_table :=
  table [
    ((0, 630.615),
     [
      -2.465081834600e-01; 1.180804234200e-02; -3.977379490800e-06;
      6.267316760400e-09; -8.472264620000e-12; 3.779420845640e-15
     ]);
    ((630.615, 1820),
     [
      2.857174747000e-01; -1.697702095700e-04; 4.735584049200e-04;
      -6.734137945600e-07; 5.554897006500e-10; -2.670925859800e-13;
      6.928304857470e-17; -7.503266423120e-21
     ])
  ].

Definition TEMP_TO_DSDT : range_table :=
  table [
    ((0, 630.615),
     [
      1.180804234200e-02; -7.954758981600e-06; 1.880195028120e-08;
      -3.388905848000e-11; 1.889710422820e-14
     ]);
    ((630.615, 1820),
     [
      -1.697702095700e-04; 9.471168098400e-04; -2.020241383680e-06;
      2.221958802600e-09; -1.335462929900e-12; 4.156982914482e-16;
      -5.252586738384e-20
     ])
  ].

Definition TEMP_TO_MICROVOLT_POS_LEG : range_table :=
  table [
    ((0, 630.615),
     [
      0.000000000000e00; 4.822787568700e00; 1.565116570900e-02;
      -2.223379788200e-05; 2.833324407400e-08; -2.025894044700e-11;
      6.148870509600e-15
     ]);
    ((630.615, 1768.1),
     [
      -7.9680432282e3; 6.39411102130e1; -1.7102421410e-1;
      3.05557825270e-4; -3.2105744492e-7; 2.09091027940e-10;
      -8.2335825426e-14; 1.78228415150e-17; -1.6187074187e-21
     ])
  ].

Definition TEMP_TO_MICROVOLT_NEG_LEG : range_table :=
  table [
    ((0, 630.615),
     [
      0.000000000000e00; 5.069295752200e00; 9.747123532000e-03;
      -2.090906471800e-05; 2.676641488300e-08; -1.856448752300e-11;
      5.518967038600e-15
     ]);
    ((630.615, 1768.1),
     [
      -4.074226366200e03; 3.536936274300e01; -8.613910931500e-02;
      1.477050236200e-04; -1.527039962900e-07; 9.799308790500e-11;
      -3.782039439300e-14; 7.925277432800e-18; -6.807941157800e-22
     ])
  ].

Definition TEMP_TO_SEEBECK_POS_LEG : range_table :=
  table [
    ((0, 630.615),
     [
      4.822787568700e00; 3.130233141800e-02; -6.670139364600e-05;
      1.133329762960e-07; -1.012947022350e-10; 3.689322305760e-14
     ]);
    ((630.615, 1768.1),
     [
      6.39411102130e1; -3.4204842820e-1; 9.16673475810e-4;
      -1.28422977968e-6; 1.04545513970e-9; -4.94014952556e-13;
      1.42582732120e-16; -1.29496593496e-20
     ])
  ].

Definition TEMP_TO_SEEBECK_NEG_LEG : range_table :=
  table [
    ((0, 630.615),
     [
      5.069295752200e00; 1.949424706400e-02; -6.272719415400e-05;
      1.070656595320e-07; -9.282243761500e-11; 3.311380223160e-14
     ]);
    ((630.615, 1768.1),
     [
      3.536936274300e01; -1.722782186300e-01; 4.431150708600e-04;
      -6.108159851600e-07; 4.899654395250e-10; -2.269223663580e-13;
      5.547694203960e-17; -5.446352926240e-21
     ])
  ].

End type_b.

(** [types/type_j.py]. *)
Module type_j.

Definition TEMP_TO_MICROVOLT : range_table :=
  table [
    ((-210, 760),
     [
      0.000000000000e00; 5.038118781500e01; 3.047583693000e-02;
      -8.568106572000e-05; 1.322819529500e-07; -1.705295833700e-10;
      2.094809069700e-13; -1.253839533600e-16; 1.563172569700e-20
     ]);
    ((760, 1200),
     [
      2.964562568100e05; -1.497612778600e03; 3.178710392400e00;
      -3.184768670100e-03; 1.572081900400e-06; -3.069136905600e-10
     ])
  ].

Definition MICROVOLT_TO_TEMP : range_table :=
  table [
    ((-8095, 0),
     [
      0.000000000000e00; 1.952826800000e-02; -1.228618500000e-06;
      -1.075217800000e-09; -5.908693300000e-13; -1.725671300000e-16;
      -2.813151300000e-20; -2.396337000000e-24; -8.382332100000e-29
     ]);
    ((0, 42919),
     [
      0.000000000000e00; 1.978425000000e-02; -2.001204000000e-07;
      1.036969000000e-11; -2.549687000000e-16; 3.585153000000e-21;
      -5.344285000000e-26; 5.099890000000e-31
     ]);
    ((42919, 69553),
     [
      -3.113581870000e03; 3.005436840000e-01; -9.947732300000e-06;
      1.702766300000e-10; -1.430334680000e-15; 4.738860840000e-21
     ])
  ].

Definition TEMP_TO_SEEBECK : range_table :=
  table [
    ((-210, 760),
     [
      5.038118781500e01; 6.095167386000e-02; -2.570431971600e-04;
      5.291278118000e-07; -8.526479168500e-10; 1.256885441820e-12;
      -8.776837035200e-16; 1.250538055760e-19
     ]);
    ((760, 1200),
     [
      -1.497612778600e03; 6.357420784800e00; -9.554306010300e-03;
      6.288327601600e-06; -1.534568452800e-09
     ])
  ].

Definition TEMP_TO_DSDT : range_table :=
  table [
    ((-210, 760),
     [
      6.095167386000e-02; -5.140863943200e-04; 1.587383435400e-06;
      -3.410591667400e-09; 6.284427209100e-12; -5.266102421120e-15;
      8.753766390320e-19
     ]);
    ((760, 1200),
     [
      6.357420784800e00; -1.910861202060e-02; 1.886498280480e-05;
      -6.138273811200e-09
     ])
  ].

Definition TEMP_TO_MICROVOLT_POS_LEG : range_table :=
  table [
    ((-210, 760),
     [
      0.000000000000e00; 1.791354855900e01; 4.677466335800e-03;
      -7.122599299100e-05; 1.335212501600e-07; -1.500896263900e-10;
      1.551431962500e-13; -7.950357212500e-17; 2.429790391000e-21
     ])
  ].

Definition TEMP_TO_MICROVOLT_NEG_LEG : range_table :=
  table [
    ((-210, 760),
     [
      0.000000000000e00; 3.246763925600e01; 2.579837059400e-02;
      -1.445507273000e-05; -1.239297209300e-06; -2.043995698000e-11;
      5.433771071800e-14; -4.588038123500e-17; 1.320193530600e-20
     ])
  ].

Definition TEMP_TO_SEEBECK_POS_LEG : range_table :=
  table [
    ((-210, 760),
     [
      1.791354855900e01; 9.354932671600e-03; -2.136779789730e-04;
      5.340850006400e-07; -7.504481319500e-10; 9.308591775000e-13;
      -5.565250048750e-16; 1.943832312800e-19
     ])
  ].

Definition TEMP_TO_SEEBECK_NEG_LEG : range_table :=
  table [
    ((-210, 760),
     [
      3.246763925600e01; 5.159674118800e-02; -4.336521819000e-05;
      -4.957188837200e-06; -1.021997849000e-10; 3.260262643080e-13;
      -3.210626686450e-16; 1.188174177540e-19
     ])
  ].

End type_j.

(** [types/type_n.py]. *)
Module type_n.

Definition TEMP_TO_MICROVOLT : range_table :=
  table [
    ((-270, 0),
     [
      0.000000000000e00; 2.615910596200e01; 1.095748422800e-02;
      -9.384111155400e-05; -4.641203975900e-06; -2.630335771600e-07;
      -2.265343800300e-09; -7.608930079100e-12; -9.341966783500e-15
     ]);
    ((0, 1300),
     [
      0.000000000000e00; 2.592939460100e01; 1.571014188000e-02;
      4.382562723700e-05; -2.526116979400e-07; 6.431181933900e-10;
      -1.006347151900e-12; 9.974533899200e-16; -6.086324560700e-19;
      2.084922933900e-22; -3.068219615100e-26
     ])
  ].

Definition MICROVOLT_TO_TEMP : range_table :=
  table [
    ((-3990, 0),
     [
      0.000000000000e00; 3.843684700000e-02; 1.101048500000e-06;
      5.222931200000e-09; 7.206052500000e-13; 5.848858600000e-15;
      2.775491600000e-18; 7.707516600000e-22; 1.158266500000e-25;
      7.313886800000e-30
     ]);
    ((0, 20613),
     [
      0.000000000000e00; 3.868960000000e-02; -1.082670000000e-06;
      4.702050000000e-11; -2.121690000000e-16; -1.172720000000e-19;
      5.392800000000e-24; -7.981560000000e-29
     ]);
    ((20613, 47513),
     [
      1.972485000000e01; 3.300943000000e-02; -3.915159000000e-07;
      9.855391000000e-12; -1.274371000000e-16; 7.767022000000e-22
     ]);
    ((0, 47513),
     [
      0.000000000000e00; 3.876327700000e-02; -1.161234400000e-06;
      6.952565500000e-11; -3.009007700000e-15; 8.831158400000e-20;
      -1.621383900000e-24; 1.669336200000e-29; -7.311754000000e-35
     ])
  ].

Definition TEMP_TO_SEEBECK : range_table :=
  table [
    ((-270, 0),
     [
      2.615910596200e01; 2.191496845600e-02; -2.815233346620e-04;
      -1.856481590360e-05; -1.315167885800e-06; -1.359206280180e-08;
      -5.326251055370e-11; -7.473573426800e-14
     ]);
    ((0, 1300),
     [
      2.592939460100e01; 3.142028376000e-02; 1.314768817110e-04;
      -1.010446791760e-06; 3.215590966950e-09; -6.038082911400e-12;
      6.982203739440e-15; -4.869059648560e-18; 1.876450640510e-21;
      -3.068219615100e-25
     ])
  ].

Definition TEMP_TO_DSDT : range_table :=
  table [
    ((-270, 0),
     [
      2.191496845600e-02; -5.630466693240e-04; -5.569444771080e-05;
      -5.260671543200e-06; -6.796031401080e-08; -3.195750633222e-10;
      -5.231501998760e-13
     ]);
    ((0, 1300),
     [
      3.142028376000e-02; 2.629537634220e-04; -3.031340375280e-06;
      1.286236386780e-08; -3.019041746840e-11; 4.187542616064e-14;
      -3.408247718848e-17; 1.501060432408e-20; -2.761397653590e-24
     ])
  ].

Definition TEMP_TO_MICROVOLT_POS_LEG : range_table :=
  table [
    ((-200, 0),
     [
      0.000000000000e00; 1.074111753200e01; -1.474989822900e-02;
      -3.653285783200e-06; 4.901358902900e-07; 7.222858260400e-10;
      -1.538109323600e-11; -7.608930079100e-14; -9.341966783500e-17
     ]);
    ((0, 1300),
     [
      0.000000000000e00; 1.048400865500e01; -1.101219940900e-02;
      6.942094028900e-05; -2.195836005300e-07; 4.423649636800e-10;
      -5.792656096400e-13; 4.793166547000e-16; -2.397612067600e-19;
      6.580494631800e-23; -7.560893996500e-27
     ])
  ].

Definition TEMP_TO_MICROVOLT_NEG_LEG : range_table :=
  table [
    ((-200, 0),
     [
      0.000000000000e00; 1.541798843000e01; 2.570738245700e-02;
      -9.018782577100e-05; -5.365479300500e-06; -3.352621597600e-09;
      -7.272344767000e-12
     ]);
    ((0, 1300),
     [
      0.000000000000e00; 1.544536594700e01; 2.672341269000e-02;
      -2.559531305200e-05; -3.302809741400e-08; 2.007532297100e-10;
      -4.270815423000e-13; 5.181347352200e-16; -3.689712493100e-19;
      1.426973470800e-22; -2.312130215400e-26
     ])
  ].

Definition TEMP_TO_SEEBECK_POS_LEG : range_table :=
  table [
    ((-200, 0),
     [
      1.074111753200e01; -2.949979645800e-02; -1.095985734960e-05;
      1.960543561160e-06; 2.889143304160e-09; -9.228655941600e-11;
      -5.326251055370e-13; -7.473573426800e-16
     ]);
    ((0, 1300),
     [
      1.048400865500e01; -2.202439881800e-02; 2.082628208670e-04;
      -8.783344021200e-07; 2.211824818400e-09; -4.054859267480e-12;
      3.834533237600e-15; -1.917089654080e-18; 5.922445168620e-21;
      -7.560893996500e-24
     ])
  ].

Definition TEMP_TO_SEEBECK_NEG_LEG : range_table :=
  table [
    ((-200, 0),
     [
      1.541798843000e01; 5.141476491400e-02; -2.705487868130e-04;
      -2.146191720200e-05; -1.341048639040e-07; -4.363409860400e-10
     ]);
    ((0, 1300),
     [
      1.544536594700e01; 5.344682538000e-02; -7.678593915600e-05;
      -1.321123896560e-07; 1.003766148550e-09; -2.562489253800e-12;
      3.627943146540e-15; -2.951769994480e-18; 1.284276123720e-21;
      -2.543343236940e-24
     ])
  ].

End type_n.

(** [types/type_r.py]. *)
Module type_r.

Definition TEMP_TO_MICROVOLT : range_table :=
  table [
    ((-50, 1064.18),
     [
      0.000000000000e00; 5.289617297650e00; 1.391665897820e-02;
      -2.388556930170e-05; 3.569160010630e-08; -4.623476662980e-11;
      5.007774410340e-14; -3.731058861910e-17; 1.577164823670e-20;
      -2.810386252510e-24
     ]);
    ((1064.18, 1664.5),
     [
      2.951579253160e03; -2.520612513320e00; 1.595645018650e-02;
      -7.640859475760e-06; 2.053052910240e-09; -2.933596681730e-13
     ]);
    ((1664.5, 1768.1),
     [
      1.522321182090e05; -2.688198885450e02; 1.712802804710e-01;
      -3.458957064530e-05; -9.346339710460e-12
     ])
  ].

Definition MICROVOLT_TO_TEMP : range_table :=
  table [
    ((-226, 1923),
     [
      0.0000000000e00; 1.8891380000e-01; -9.3835290000e-05;
      1.3068619000e-07; -2.2703580000e-10; 3.5145659000e-13;
      -3.8953900000e-16; 2.8239471000e-19; -1.2607281000e-22;
      3.1353611000e-26; -3.3187769000e-30
     ]);
    ((1923, 13228),
     [
      1.334584505000e01; 1.472644573000e-01; -1.844024844000e-05;
      4.031129726000e-09; -6.249428360000e-13; 6.468412046000e-17;
      -4.458750426000e-21; 1.994710149000e-25; -5.313401790000e-30;
      6.481976217000e-35
     ]);
    ((11361, 19739),
     [
      -8.199599416000e01; 1.553962042000e-01; -8.342197663000e-06;
      4.279433549000e-10; -1.191577910000e-14; 1.492290091000e-19
     ]);
    ((19739, 21103),
     [
      3.406177836000e01; -7.023729171000e-03; 5.582903813000e-06;
      -1.952394635000e-09; 2.560740231000e-13
     ])
  ].

Definition TEMP_TO_SEEBECK : range_table :=
  table [
    ((-50, 1064.18),
     [
      5.289617297650e00; 2.783331795640e-02; -7.165670790510e-05;
      1.427664004252e-07; -2.311738331490e-10; 3.004664646204e-13;
      -2.611741203370e-16; 1.261731858936e-19; -2.529347502259e-23
     ]);
    ((1064.18, 1664.5),
     [
      -2.520612513320e00; 3.191290037300e-02; -2.292257862280e-05;
      8.212211640960e-09; -1.466798340865e-12
     ]);
    ((1664.5, 1768.1),
     [
      -2.688198885450e02; 3.425605609420e-01; -1.037691219359e-04;
      -3.738533884184e-11
     ])
  ].

Definition TEMP_TO_DSDT : range_table :=
  table [
    ((-50, 1064.18),
     [
      2.783331795640e-02; -1.433134158102e-04; 4.282992012756e-07;
      -9.246953325960e-10; 1.502332323102e-12; -1.567044722022e-15;
      8.821230212552e-19; -2.026478001807e-22
     ]);
    ((1064.18, 1664.5),
     [
      3.191290037300e-02; -4.584515724560e-05; 2.463663492288e-08;
      -5.867193363460e-12
     ]);
    ((1664.5, 1768.1),
     [
      3.425605609420e-01; -2.075382438718e-04; -1.121560165255e-10
     ])
  ].

Definition TEMP_TO_MICROVOLT_POS_LEG : range_table :=
  table [
    ((-50, 1064.18),
     [
      0.000000000000e00; 5.289617297650e00; 1.391665897820e-02;
      -2.388556930170e-05; 3.569160010630e-08; -4.623476662980e-11;
      5.007774410340e-14; -3.731058861910e-17; 1.577164823670e-20;
      -2.810386252510e-24
     ]);
    ((1064.18, 1664.5),
     [
      2.951579253160e03; -2.520612513320e00; 1.595645018650e-02;
      -7.640859475760e-06; 2.053052910240e-09; -2.933596681730e-13
     ]);
    ((1664.5, 1768.1),
     [
      1.522321182090e05; -2.688198885450e02; 1.712802804710e-01;
      -3.458957064530e-05; -9.346339710460e-12
     ])
  ].

Definition TEMP_TO_MICROVOLT_NEG_LEG : range_table :=
  table [
    ((-50, 1768.1),
     [
      0.000000000000e00
     ])
  ].

Definition TEMP_TO_SEEBECK_POS_LEG : range_table :=
  table [
    ((-50, 1064.18),
     [
      5.289617297650e00; 2.783331795640e-02; -7.165670790510e-05;
      1.427664004252e-07; -2.311738331490e-10; 3.004664646204e-13;
      -2.611741203370e-16; 1.261731858936e-19; -2.529347502259e-23
     ]);
    ((1064.18, 1664.5),
     [
      -2.520612513320e00; 3.191290037300e-02; -2.292257862280e-05;
      8.212211640960e-09; -1.466798340865e-12
     ]);
    ((1664.5, 1768.1),
     [
      -2.688198885450e02; 3.425605609420e-01; -1.037691219359e-04;
      -3.738533884184e-11
     ])
  ].

Definition TEMP_TO_SEEBECK_NEG_LEG : range_table :=
  table [
    ((-50, 1768.1),
     [
      0.0
     ])
  ].

End type_r.

(** [types/type_s.py]. *)
Module type_s.

Definition TEMP_TO_MICROVOLT : range_table :=
  table [
    ((-50, 1064.18),
     [
      0.000000000000e00; 5.403133086310e00; 1.259342897400e-02;
      -2.324779686890e-05; 3.220288230360e-08; -3.314651963890e-11;
      2.557442517860e-14; -1.250688713930e-17; 2.714431761450e-21
     ]);
    ((1064.18, 1664.5),
     [
      1.329004440850e03; 3.345093113440e00; 6.548051928180e-03;
      -1.648562592090e-06; 1.299896051740e-11
     ]);
    ((1664.5, 1768.1),
     [
      1.466282326360e05; -2.584305167520e02; 1.636935746410e-01;
      -3.304390469870e-05; -9.432236906120e-12
     ])
  ].

Definition MICROVOLT_TO_TEMP : range_table :=
  table [
    ((-235, 1874),
     [
      0.000000000000e00; 1.849494600000e-01; -8.005040620000e-05;
      1.022374300000e-07; -1.522485920000e-10; 1.888213430000e-13;
      -1.590859410000e-16; 8.230278800000e-20; -2.341819440000e-23;
      2.797862600000e-27
     ]);
    ((1874, 11950),
     [
      1.291507177000e01; 1.466298863000e-01; -1.534713402000e-05;
      3.145945973000e-09; -4.163257839000e-13; 3.187963771000e-17;
      -1.291637500000e-21; 2.183475087000e-26; -1.447379511000e-31;
      8.211272125000e-36
     ]);
    ((10332, 17536),
     [
      -8.087801117000e01; 1.621573104000e-01; -8.536869453000e-06;
      4.719686976000e-10; -1.441693666000e-14; 2.081618890000e-19
     ]);
    ((17536, 18693),
     [
      5.333875126000e01; -1.235892298000e-02; 1.092657613000e-06;
      -4.265693686000e-09; 6.247205420000e-13
     ])
  ].

Definition TEMP_TO_SEEBECK : range_table :=
  table [
    ((-50, 1064.18),
     [
      5.403133086310e00; 2.518685794800e-02; -6.974339060670e-05;
      1.288115292144e-07; -1.657325963945e-10; 1.534465510716e-13;
      -8.754820751100e-17; 2.171545409160e-20
     ]);
    ((1064.18, 1664.5),
     [
      3.345093113440e00; 1.309610385636e-02; -4.945637776270e-06;
      5.199584069600e-11
     ]);
    ((1664.5, 1768.1),
     [
      -2.584305167520e02; 3.273871492820e-01; -9.913171409610e-05;
      -3.772894762448e-11
     ])
  ].

Definition TEMP_TO_DSDT : range_table :=
  table [
    ((-50, 1064.18),
     [
      2.518685794800e-02; -1.394867812134e-04; 3.864345876432e-07;
      -6.629303855780e-10; 7.672327553580e-13; -5.252874525770e-16;
      1.520081486312e-19
     ]);
    ((1064.18, 1664.5),
     [
      1.309610385636e-02; -9.891275552540e-06; 1.559875220880e-10
     ]);
    ((1664.5, 1768.1),
     [
      3.273871492820e-01; -1.982634281922e-04; -1.131868428734e-10
     ])
  ].

Definition TEMP_TO_MICROVOLT_POS_LEG : range_table :=
  table [
    ((-50, 1064.18),
     [
      0.000000000000e00; 5.403133086310e00; 1.259342897400e-02;
      -2.324779686890e-05; 3.220288230360e-08; -3.314651963890e-11;
      2.557442517860e-14; -1.250688713930e-17; 2.714431761450e-21
     ]);
    ((1064.18, 1664.5),
     [
      1.329004440850e03; 3.345093113440e00; 6.548051928180e-03;
      -1.648562592090e-06; 1.299896051740e-11
     ]);
    ((1664.5, 1768.1),
     [
      1.466282326360e05; -2.584305167520e02; 1.636935746410e-01;
      -3.304390469870e-05; -9.432236906120e-12
     ])
  ].

Definition TEMP_TO_MICROVOLT_NEG_LEG : range_table :=
  table [
    ((-50, 1768.1),
     [
      0.000000000000e00
     ])
  ].

Definition TEMP_TO_SEEBECK_POS_LEG : range_table :=
  table [
    ((-50, 1064.18),
     [
      5.403133086310e00; 2.518685794800e-02; -6.974339060670e-05;
      1.288115292144e-07; -1.657325963945e-10; 1.534465510716e-13;
      -8.754820751100e-17; 2.171545409160e-20
     ]);
    ((1064.18, 1664.5),
     [
      3.345093113440e00; 1.309610385636e-02; -4.945637776270e-06;
      5.199584069600e-11
     ]);
    ((1664.5, 1768.1),
     [
      -2.584305167520e02; 3.273871492820e-01; -9.913171409610e-05;
      -3.772894762448e-11
     ])
  ].

Definition TEMP_TO_SEEBECK_NEG_LEG : range_table :=
  table [
    ((-50, 1768.1),
     [
      0.0
     ])
  ].

End type_s.

(** [types/type_t.py]. *)
Module type_t.

Definition TEMP_TO_MICROVOLT : range_table :=
  table [
    ((-270, 0),
     [
      0.000000000000e00; 3.874810636400e01; 4.419443434700e-02;
      1.184432310500e-04; 2.003297355400e-05; 9.013801955900e-07;
      2.265115659300e-08; 3.607115420500e-10; 3.849393988300e-12;
      2.821352192500e-14; 1.425159477900e-16; 4.876866228600e-19;
      1.079553927000e-21; 1.394502706200e-24; 7.979515392700e-28
     ]);
    ((0, 400),
     [
      0.000000000000e00; 3.874810636400e01; 3.329222788000e-02;
      2.061824340400e-04; -2.188225684600e-06; 1.099688092800e-08;
      -3.081575877200e-11; 4.547913529000e-14; -2.751290167300e-17
     ])
  ].

Definition MICROVOLT_TO_TEMP : range_table :=
  table [
    ((-5603, 0),
     [
      0.000000000000e00; 2.594919200000e-02; -2.131696700000e-07;
      7.901869200000e-10; 4.252777700000e-13; 1.330447300000e-16;
      2.024144600000e-20; 1.266817100000e-24
     ]);
    ((0, 20872),
     [
      0.000000000000e00; 2.592800000000e-02; -7.602961000000e-07;
      4.637791000000e-11; -2.165394000000e-15; 6.048144000000e-20;
      -7.293422000000e-25
     ])
  ].

Definition TEMP_TO_SEEBECK : range_table :=
  table [
    ((-270, 0),
     [
      3.874810636400e01; 8.838886869400e-02; 3.553296931500e-04;
      8.013189421600e-05; 4.506909779500e-06; 1.359069395580e-07;
      2.524990843500e-09; 3.079515190640e-11; 2.539206932500e-13;
      1.425159477900e-15; 5.364928850600e-18; 1.295464712400e-20;
      1.812853518060e-23; 1.117132050780e-26
     ]);
    ((0, 400),
     [
      3.874810636400e01; 6.658445576000e-02; 6.185473021200e-04;
      -8.752902738400e-06; 5.498440464000e-08; -1.848945526320e-10;
      3.183539470300e-13; -2.201032138400e-16
     ])
  ].

Definition TEMP_TO_DSDT : range_table :=
  table [
    ((-270, 0),
     [
      8.838886869400e-02; 7.106593863000e-04; 2.403956826480e-04;
      1.802763911800e-05; 6.795346977900e-07; 1.514994506100e-08;
      2.155660633448e-10; 2.031365546000e-12; 1.282643530110e-14;
      5.364928850600e-17; 1.425164712400e-19; 2.356710723278e-22;
      1.562382668092e-25
     ]);
    ((0, 400),
     [
      6.658445576000e-02; 1.237094604240e-03; -2.625870821520e-05;
      2.199376185600e-07; -9.244727631600e-10; 1.910123682180e-12;
      -1.540722496720e-15
     ])
  ].

Definition TEMP_TO_MICROVOLT_POS_LEG : range_table :=
  table [
    ((-270, 0),
     [
      0.000000000000e00; 5.894548229700e01; 2.177354516700e-02;
      2.826751733100e-04; 2.256129063200e-05; 9.502026902000e-07;
      2.412716823300e-08; 3.910747567800e-10; 4.217403476600e-12;
      3.094671890400e-14; 1.551930033900e-16; 5.235860991100e-19;
      1.136383791300e-21; 1.433054079200e-24; 7.979515392700e-28
     ]);
    ((0, 400),
     [
      0.000000000000e00; 5.894548226500e01; 1.509134765200e-02;
      1.385988324200e-04; -1.827351164900e-06; 1.033635649100e-08;
      -3.065826553400e-11; 4.681530823500e-14; -2.974071681200e-17;
      1.474503431300e-20; -3.659405308700e-25
     ])
  ].

Definition TEMP_TO_MICROVOLT_NEG_LEG : range_table :=
  table [
    ((-270, 0),
     [
      0.000000000000e00; 3.285355813400e01; 2.242088818100e-02;
      -1.642329422600e-04; -2.528317078000e-06; -4.892249460900e-08;
      -1.476011640400e-09; -3.036321473100e-11; -3.680094883000e-13;
      -2.733196978500e-15; -1.267705560500e-17; -3.589947524700e-20;
      -5.682986428000e-23; -3.855137308500e-26
     ]);
    ((0, 1000),
     [
      0.000000000000e00; 3.285355813800e01; 1.820088022700e-02;
      6.758360162400e-05; -3.608745197500e-07; 6.605244362300e-10;
      -1.574932377100e-13; -1.336172944200e-15; 2.227815139100e-18;
      -1.474503431300e-21; 3.659405308700e-25
     ])
  ].

Definition TEMP_TO_SEEBECK_POS_LEG : range_table :=
  table [
    ((-270, 0),
     [
      5.894548229700e01; 4.354709033400e-02; 8.480255199300e-04;
      9.024516252800e-05; 4.751013451000e-06; 1.447630093980e-07;
      2.737523297460e-09; 3.373922781280e-11; 2.785204701360e-13;
      1.551930033900e-15; 5.759447090210e-18; 1.363660549560e-20;
      1.863970303960e-23; 1.117132050780e-26
     ]);
    ((0, 400),
     [
      5.894548226500e01; 3.018269530400e-02; 4.157964972600e-04;
      -7.309404659600e-06; 5.168178245500e-08; -2.146078587380e-10;
      3.277071576450e-13; -2.379257345000e-16; 1.327053088170e-19;
      -3.659405308700e-24
     ])
  ].

Definition TEMP_TO_SEEBECK_NEG_LEG : range_table :=
  table [
    ((-270, 0),
     [
      3.285355813400e01; 4.484177636200e-02; -4.926988267800e-04;
      -1.011326831200e-05; -2.935349676540e-07; -8.856069842400e-09;
      -2.125425031170e-10; -2.944075906400e-12; -2.459877280650e-14;
      -1.267705560500e-16; -3.948942277170e-19; -7.387882356000e-22;
      -5.011678501050e-25
     ]);
    ((0, 1000),
     [
      3.285355813800e01; 3.640176045400e-02; 2.027508048720e-04;
      -1.443498079000e-06; 3.963146617380e-09; -9.449594262600e-13;
      -9.353210609400e-15; 1.782252111280e-17; -1.327053088170e-20;
      3.659405308700e-24
     ])
  ].

End type_t.

Close Scope Q_scope.

(** ** The registry: [registry.py] *)

(** What [registry] imports from a coefficient module. *)
Record type_module : Type := {
  MICROVOLT_TO_TEMP : range_table;
  TEMP_TO_DSDT : range_table;
  TEMP_TO_MICROVOLT : range_table;
  TEMP_TO_MICROVOLT_NEG_LEG : range_table;
  TEMP_TO_MICROVOLT_POS_LEG : range_table;
  TEMP_TO_SEEBECK : range_table;
  TEMP_TO_SEEBECK_NEG_LEG : range_table;
  TEMP_TO_SEEBECK_POS_LEG : range_table
}.

(** The four functions [registry] imports from [types.type_k]. *)
Record type_k_functions : Type := {
  _type_k_dsdt_expo_function : float -> float;
  _type_k_kn_expo_function : float -> float;
  _type_k_seebeck_expo_function : float -> float;
  _type_k_voltage_expo_function : float -> float
}.

(** The imports [from .types.type_b import (X as B_X)], and likewise for
    J, N, R, S and T. *)
Definition B_MICROVOLT_TO_TEMP : range_table := type_b.MICROVOLT_TO_TEMP.
Definition B_TEMP_TO_DSDT : range_table := type_b.TEMP_TO_DSDT.
Definition B_TEMP_TO_MICROVOLT : range_table := type_b.TEMP_TO_MICROVOLT.
Definition B_TEMP_TO_MICROVOLT_NEG_LEG : range_table := type_b.TEMP_TO_MICROVOLT_NEG_LEG.
Definition B_TEMP_TO_MICROVOLT_POS_LEG : range_table := type_b.TEMP_TO_MICROVOLT_POS_LEG.
Definition B_TEMP_TO_SEEBECK : range_table := type_b.TEMP_TO_SEEBECK.
Definition B_TEMP_TO_SEEBECK_NEG_LEG : range_table := type_b.TEMP_TO_SEEBECK_NEG_LEG.
Definition B_TEMP_TO_SEEBECK_POS_LEG : range_table := type_b.TEMP_TO_SEEBECK_POS_LEG.
Definition J_MICROVOLT_TO_TEMP : range_table := type_j.MICROVOLT_TO_TEMP.
Definition J_TEMP_TO_DSDT : range_table := type_j.TEMP_TO_DSDT.
Definition J_TEMP_TO_MICROVOLT : range_table := type_j.TEMP_TO_MICROVOLT.
Definition J_TEMP_TO_MICROVOLT_NEG_LEG : range_table := type_j.TEMP_TO_MICROVOLT_NEG_LEG.
Definition J_TEMP_TO_MICROVOLT_POS_LEG : range_table := type_j.TEMP_TO_MICROVOLT_POS_LEG.
Definition J_TEMP_TO_SEEBECK : range_table := type_j.TEMP_TO_SEEBECK.
Definition J_TEMP_TO_SEEBECK_NEG_LEG : range_table := type_j.TEMP_TO_SEEBECK_NEG_LEG.
Definition J_TEMP_TO_SEEBECK_POS_LEG : range_table := type_j.TEMP_TO_SEEBECK_POS_LEG.
Definition N_MICROVOLT_TO_TEMP : range_table := type_n.MICROVOLT_TO_TEMP.
Definition N_TEMP_TO_DSDT : range_table := type_n.TEMP_TO_DSDT.
Definition N_TEMP_TO_MICROVOLT : range_table := type_n.TEMP_TO_MICROVOLT.
Definition N_TEMP_TO_MICROVOLT_NEG_LEG : range_table := type_n.TEMP_TO_MICROVOLT_NEG_LEG.
Definition N_TEMP_TO_MICROVOLT_POS_LEG : range_table := type_n.TEMP_TO_MICROVOLT_POS_LEG.
Definition N_TEMP_TO_SEEBECK : range_table := type_n.TEMP_TO_SEEBECK.
Definition N_TEMP_TO_SEEBECK_NEG_LEG : range_table := type_n.TEMP_TO_SEEBECK_NEG_LEG.
Definition N_TEMP_TO_SEEBECK_POS_LEG : range_table := type_n.TEMP_TO_SEEBECK_POS_LEG.
Definition R_MICROVOLT_TO_TEMP : range_table := type_r.MICROVOLT_TO_TEMP.
Definition R_TEMP_TO_DSDT : range_table := type_r.TEMP_TO_DSDT.
Definition R_TEMP_TO_MICROVOLT : range_table := type_r.TEMP_TO_MICROVOLT.
Definition R_TEMP_TO_MICROVOLT_NEG_LEG : range_table := type_r.TEMP_TO_MICROVOLT_NEG_LEG.
Definition R_TEMP_TO_MICROVOLT_POS_LEG : range_table := type_r.TEMP_TO_MICROVOLT_POS_LEG.
Definition R_TEMP_TO_SEEBECK : range_table := type_r.TEMP_TO_SEEBECK.
Definition R_TEMP_TO_SEEBECK_NEG_LEG : range_table := type_r.TEMP_TO_SEEBECK_NEG_LEG.
Definition R_TEMP_TO_SEEBECK_POS_LEG : range_table := type_r.TEMP_TO_SEEBECK_POS_LEG.
Definition S_MICROVOLT_TO_TEMP : range_table := type_s.MICROVOLT_TO_TEMP.
Definition S_TEMP_TO_DSDT : range_table := type_s.TEMP_TO_DSDT.
Definition S_TEMP_TO_MICROVOLT : range_table := type_s.TEMP_TO_MICROVOLT.
Definition S_TEMP_TO_MICROVOLT_NEG_LEG : range_table := type_s.TEMP_TO_MICROVOLT_NEG_LEG.
Definition S_TEMP_TO_MICROVOLT_POS_LEG : range_table := type_s.TEMP_TO_MICROVOLT_POS_LEG.
Definition S_TEMP_TO_SEEBECK : range_table := type_s.TEMP_TO_SEEBECK.
Definition S_TEMP_TO_SEEBECK_NEG_LEG : range_table := type_s.TEMP_TO_SEEBECK_NEG_LEG.
Definition S_TEMP_TO_SEEBECK_POS_LEG : range_table := type_s.TEMP_TO_SEEBECK_POS_LEG.
Definition T_MICROVOLT_TO_TEMP : range_table := type_t.MICROVOLT_TO_TEMP.
Definition T_TEMP_TO_DSDT : range_table := type_t.TEMP_TO_DSDT.
Definition T_TEMP_TO_MICROVOLT : range_table := type_t.TEMP_TO_MICROVOLT.
Definition T_TEMP_TO_MICROVOLT_NEG_LEG : range_table := type_t.TEMP_TO_MICROVOLT_NEG_LEG.
Definition T_TEMP_TO_MICROVOLT_POS_LEG : range_table := type_t.TEMP_TO_MICROVOLT_POS_LEG.
Definition T_TEMP_TO_SEEBECK : range_table := type_t.TEMP_TO_SEEBECK.
Definition T_TEMP_TO_SEEBECK_NEG_LEG : range_table := type_t.TEMP_TO_SEEBECK_NEG_LEG.
Definition T_TEMP_TO_SEEBECK_POS_LEG : range_table := type_t.TEMP_TO_SEEBECK_POS_LEG.

(** The instances built from modules whose text is available. *)
Definition TYPE_J : ThermocoupleType :=
  __init__ "J"
    J_TEMP_TO_MICROVOLT
    J_MICROVOLT_TO_TEMP
    (Some J_TEMP_TO_SEEBECK)
    (Some J_TEMP_TO_DSDT)
    (Some J_TEMP_TO_MICROVOLT_POS_LEG)
    (Some J_TEMP_TO_MICROVOLT_NEG_LEG)
    (Some J_TEMP_TO_SEEBECK_POS_LEG)
    (Some J_TEMP_TO_SEEBECK_NEG_LEG)
    None None None None.

Definition TYPE_T : ThermocoupleType :=
  __init__ "T"
    T_TEMP_TO_MICROVOLT
    T_MICROVOLT_TO_TEMP
    (Some T_TEMP_TO_SEEBECK)
    (Some T_TEMP_TO_DSDT)
    (Some T_TEMP_TO_MICROVOLT_POS_LEG)
    (Some T_TEMP_TO_MICROVOLT_NEG_LEG)
    (Some T_TEMP_TO_SEEBECK_POS_LEG)
    (Some T_TEMP_TO_SEEBECK_NEG_LEG)
    None None None None.

Definition TYPE_N : ThermocoupleType :=
  __init__ "N"
    N_TEMP_TO_MICROVOLT
    N_MICROVOLT_TO_TEMP
    (Some N_TEMP_TO_SEEBECK)
    (Some N_TEMP_TO_DSDT)
    (Some N_TEMP_TO_MICROVOLT_POS_LEG)
    (Some N_TEMP_TO_MICROVOLT_NEG_LEG)
    (Some N_TEMP_TO_SEEBECK_POS_LEG)
    (Some N_TEMP_TO_SEEBECK_NEG_LEG)
    None None None None.

Definition TYPE_B : ThermocoupleType :=
  __init__ "B"
    B_TEMP_TO_MICROVOLT
    B_MICROVOLT_TO_TEMP
    (Some B_TEMP_TO_SEEBECK)
    (Some B_TEMP_TO_DSDT)
    (Some B_TEMP_TO_MICROVOLT_POS_LEG)
    (Some B_TEMP_TO_MICROVOLT_NEG_LEG)
    (Some B_TEMP_TO_SEEBECK_POS_LEG)
    (Some B_TEMP_TO_SEEBECK_NEG_LEG)
    None None None None.

Definition TYPE_R : ThermocoupleType :=
  __init__ "R"
    R_TEMP_TO_MICROVOLT
    R_MICROVOLT_TO_TEMP
    (Some R_TEMP_TO_SEEBECK)
    (Some R_TEMP_TO_DSDT)
    (Some R_TEMP_TO_MICROVOLT_POS_LEG)
    (Some R_TEMP_TO_MICROVOLT_NEG_LEG)
    (Some R_TEMP_TO_SEEBECK_POS_LEG)
    (Some R_TEMP_TO_SEEBECK_NEG_LEG)
    None None None None.

Definition TYPE_S : ThermocoupleType :=
  __init__ "S"
    S_TEMP_TO_MICROVOLT
    S_MICROVOLT_TO_TEMP
    (Some S_TEMP_TO_SEEBECK)
    (Some S_TEMP_TO_DSDT)
    (Some S_TEMP_TO_MICROVOLT_POS_LEG)
    (Some S_TEMP_TO_MICROVOLT_NEG_LEG)
    (Some S_TEMP_TO_SEEBECK_POS_LEG)
    (Some S_TEMP_TO_SEEBECK_NEG_LEG)
    None None None None.

(** Python's [str.upper], on ASCII text: the letters [a] to [z] move to
    [A] to [Z] and every other character is kept. *)
Definition upper_ascii (c : ascii) : ascii :=
  let n := nat_of_ascii c in
  if (97 <=? n)%nat && (n <=? 122)%nat then ascii_of_nat (n - 32) else c.

Fixpoint upper (s : string) : string :=
  match s with
  | EmptyString => EmptyString
  | String c rest => String (upper_ascii c) (upper rest)
  end.

(** A [dict] literal keeps its items in the order written; [d[k]] and
    [k in d] look the key up, [d.keys()] lists the keys. *)
Definition dict (V : Type) : Type := list (string * V).

Fixpoint dict_get (V : Type) (d : dict V) (k : string) : option V :=
  match d with
  | [] => None
  | (k', v) :: rest => if String.eqb k k' then Some v else dict_get rest k
  end.

Definition keys (V : Type) (d : dict V) : list string := map fst d.

(** The builtin [sorted] on strings: insertion into an ordered list with
    the code point order of [str]. *)
Fixpoint insert_sorted (s : string) (l : list string) : list string :=
  match l with
  | [] => [s]
  | t :: rest => if String.leb s t then s :: t :: rest
                 else t :: insert_sorted s rest
  end.

Definition sorted (l : list string) : list string :=
  fold_right insert_sorted [] l.

Section Registry.

(** [types.type_e] and [types.type_k]. *)
Variables type_e type_k : type_module.
Variable type_k_expo : type_k_functions.

Definition E_MICROVOLT_TO_TEMP : range_table := MICROVOLT_TO_TEMP type_e.
Definition E_TEMP_TO_DSDT : range_table := TEMP_TO_DSDT type_e.
Definition E_TEMP_TO_MICROVOLT : range_table := TEMP_TO_MICROVOLT type_e.
Definition E_TEMP_TO_MICROVOLT_NEG_LEG : range_table := TEMP_TO_MICROVOLT_NEG_LEG type_e.
Definition E_TEMP_TO_MICROVOLT_POS_LEG : range_table := TEMP_TO_MICROVOLT_POS_LEG type_e.
Definition E_TEMP_TO_SEEBECK : range_table := TEMP_TO_SEEBECK type_e.
Definition E_TEMP_TO_SEEBECK_NEG_LEG : range_table := TEMP_TO_SEEBECK_NEG_LEG type_e.
Definition E_TEMP_TO_SEEBECK_POS_LEG : range_table := TEMP_TO_SEEBECK_POS_LEG type_e.
Definition K_MICROVOLT_TO_TEMP : range_table := MICROVOLT_TO_TEMP type_k.
Definition K_TEMP_TO_DSDT : range_table := TEMP_TO_DSDT type_k.
Definition K_TEMP_TO_MICROVOLT : range_table := TEMP_TO_MICROVOLT type_k.
Definition K_TEMP_TO_MICROVOLT_NEG_LEG : range_table := TEMP_TO_MICROVOLT_NEG_LEG type_k.
Definition K_TEMP_TO_MICROVOLT_POS_LEG : range_table := TEMP_TO_MICROVOLT_POS_LEG type_k.
Definition K_TEMP_TO_SEEBECK : range_table := TEMP_TO_SEEBECK type_k.
Definition K_TEMP_TO_SEEBECK_NEG_LEG : range_table := TEMP_TO_SEEBECK_NEG_LEG type_k.
Definition K_TEMP_TO_SEEBECK_POS_LEG : range_table := TEMP_TO_SEEBECK_POS_LEG type_k.

Definition TYPE_K : ThermocoupleType :=
  __init__ "K"
    K_TEMP_TO_MICROVOLT
    K_MICROVOLT_TO_TEMP
    (Some K_TEMP_TO_SEEBECK)
    (Some K_TEMP_TO_DSDT)
    (Some K_TEMP_TO_MICROVOLT_POS_LEG)
    (Some K_TEMP_TO_MICROVOLT_NEG_LEG)
    (Some K_TEMP_TO_SEEBECK_POS_LEG)
    (Some K_TEMP_TO_SEEBECK_NEG_LEG)
    (Some (_type_k_voltage_expo_function type_k_expo))
    (Some (_type_k_seebeck_expo_function type_k_expo))
    (Some (_type_k_dsdt_expo_function type_k_expo))
    (Some (_type_k_kn_expo_function type_k_expo)).

Definition TYPE_E : ThermocoupleType :=
  __init__ "E"
    E_TEMP_TO_MICROVOLT
    E_MICROVOLT_TO_TEMP
    (Some E_TEMP_TO_SEEBECK)
    (Some E_TEMP_TO_DSDT)
    (Some E_TEMP_TO_MICROVOLT_POS_LEG)
    (Some E_TEMP_TO_MICROVOLT_NEG_LEG)
    (Some E_TEMP_TO_SEEBECK_POS_LEG)
    (Some E_TEMP_TO_SEEBECK_NEG_LEG)
    None None None None.

(** [THERMOCOUPLE_TYPES]. *)
Definition THERMOCOUPLE_TYPES : dict ThermocoupleType :=
  [("B", TYPE_B); ("E", TYPE_E); ("J", TYPE_J); ("K", TYPE_K);
   ("N", TYPE_N); ("R", TYPE_R); ("S", TYPE_S); ("T", TYPE_T)]%string.

(** The message of the [ValueError] of [get_thermocouple]. *)
Definition not_supported_message (tc_type available : string) : message :=
  [Text ("Thermocouple type '" ++ tc_type
           ++ "' not supported. Available types: " ++ available)%string].

(** [get_thermocouple]: [tc_type not in THERMOCOUPLE_TYPES] is the failed
    lookup, [THERMOCOUPLE_TYPES[tc_type]] the successful one. *)
Definition get_thermocouple (tc_type : string) : result ThermocoupleType :=
  let tc_type := upper tc_type in
  match dict_get THERMOCOUPLE_TYPES tc_type with
  | None =>
      let available :=
        String.concat ", " (sorted (keys THERMOCOUPLE_TYPES)) in
      Raise (ValueError (not_supported_message tc_type available))
  | Some tc => Return tc
  end.

End Registry.

(** ** Notions of the specification *)

(** [x] lies in the closed interval of an entry. *)
Definition in_interval (x : float) (e : entry) : Prop :=
  (fst (fst e) <= x)%Qc /\ (x <= snd (fst e))%Qc.

(** [x] lies outside every declared interval of a table. *)
Definition outside (x : float) (tables : range_table) : Prop :=
  Forall (fun e => ~ in_interval x e) tables.

(** [coeffs] belongs to the first entry of [tables] whose interval
    contains [x]: the entries declared before it do not contain [x]. *)
Definition first_match (x : float) (tables : range_table)
    (coeffs : list float) : Prop :=
  exists pre lo hi post,
    tables = pre ++ ((lo, hi), coeffs) :: post /\
    outside x pre /\ (lo <= x)%Qc /\ (x <= hi)%Qc.

(** The sum of [f 0], ..., [f (n - 1)]. *)
Fixpoint big_sum (n : nat) (f : nat -> float) : float :=
  match n with
  | O => lit 0
  | S k => (big_sum k f + f k)%Qc
  end.

(** The polynomial of the specification: the sum over [i] from [0] of
    [c_i * x^i], where [c_i] is the coefficient of index [i]. *)
Definition polynomial (coeffs : list float) (x : float) : float :=
  big_sum (List.length coeffs) (fun i => (nth i coeffs (lit 0) * x ^ i)%Qc).

(** The contract [evaluate(table, x)] of the range table evaluator, which
    the source writes as the two statements
    [coeffs = self._select_coeffs(x, tables)] and
    [result = self._polyval(coeffs, x)] at the head of every method. *)
Definition evaluate (self : ThermocoupleType) (tables : range_table)
    (x : float) : result float :=
  coeffs <- _select_coeffs self x tables ;;
  Return (_polyval self coeffs x).

(** The term a correction function contributes: its value when one is
    attached, [0] when none is. *)
Definition correction (f : option (float -> float)) (x : float) : float :=
  match f with
  | Some g => g x
  | None => lit 0
  end.

(** A model with its four correction functions removed. *)
Definition without_corrections (self : ThermocoupleType) : ThermocoupleType :=
  {| _name := _name self;
     _temp_to_microvolt := _temp_to_microvolt self;
     _microvolt_to_temp := _microvolt_to_temp self;
     _temp_to_seebeck := _temp_to_seebeck self;
     _temp_to_dsdt := _temp_to_dsdt self;
     _temp_to_microvolt_pos_leg := _temp_to_microvolt_pos_leg self;
     _temp_to_microvolt_neg_leg := _temp_to_microvolt_neg_leg self;
     _temp_to_seebeck_pos_leg := _temp_to_seebeck_pos_leg self;
     _temp_to_seebeck_neg_leg := _temp_to_seebeck_neg_leg self;
     _microvolt_expo_function := None;
     _seebeck_expo_function := None;
     _dsdt_expo_function := None;
     _microvolt_neg_leg_expo_function := None |}.

(** The two tables a compensated conversion consults. *)
Inductive table_identity : Type :=
| Forward
| Inverse.

(** The public methods of [ThermocoupleType], and a call of one of them;
    the methods of one argument ignore [b]. *)
Inductive method : Type :=
| m_temperature_to_voltage
| m_voltage_to_temperature
| m_temperature_to_seebeck
| m_temperature_to_dsdt
| m_temperature_to_volt_pos_leg
| m_temperature_to_volt_neg_leg
| m_temperature_to_seebeck_pos_leg
| m_temperature_to_seebeck_neg_leg
| m_voltage_to_temperature_with_reference.

Definition call (m : method) (self : ThermocoupleType) (a b : float)
    : result float :=
  match m with
  | m_temperature_to_voltage => temperature_to_voltage self a
  | m_voltage_to_temperature => voltage_to_temperature self a
  | m_temperature_to_seebeck => temperature_to_seebeck self a
  | m_temperature_to_dsdt => temperature_to_dsdt self a
  | m_temperature_to_volt_pos_leg => temperature_to_volt_pos_leg self a
  | m_temperature_to_volt_neg_leg => temperature_to_volt_neg_leg self a
  | m_temperature_to_seebeck_pos_leg => temperature_to_seebeck_pos_leg self a
  | m_temperature_to_seebeck_neg_leg => temperature_to_seebeck_neg_leg self a
  | m_voltage_to_temperature_with_reference =>
      voltage_to_temperature_with_reference self a b
  end.

(** The round trip of the tests: a temperature converted to a voltage and
    back. *)
Definition round_trip (self : ThermocoupleType) (temp : float)
    : result float :=
  voltage <- temperature_to_voltage self temp ;;
  voltage_to_temperature self voltage.

(** The eight letters of the registry. *)
Definition type_codes : list string :=
  ["B"; "E"; "J"; "K"; "N"; "R"; "S"; "T"]%string.

(** Stand-ins for the two modules that are parameters of the registry,
    used where a property of the registry is shown on a concrete call: the
    tables of type B and correction functions that are constantly [0]. *)
Definition sample_module : type_module :=
  {| MICROVOLT_TO_TEMP := type_b.MICROVOLT_TO_TEMP;
     TEMP_TO_DSDT := type_b.TEMP_TO_DSDT;
     TEMP_TO_MICROVOLT := type_b.TEMP_TO_MICROVOLT;
     TEMP_TO_MICROVOLT_NEG_LEG := type_b.TEMP_TO_MICROVOLT_NEG_LEG;
     TEMP_TO_MICROVOLT_POS_LEG := type_b.TEMP_TO_MICROVOLT_POS_LEG;
     TEMP_TO_SEEBECK := type_b.TEMP_TO_SEEBECK;
     TEMP_TO_SEEBECK_NEG_LEG := type_b.TEMP_TO_SEEBECK_NEG_LEG;
     TEMP_TO_SEEBECK_POS_LEG := type_b.TEMP_TO_SEEBECK_POS_LEG |}.

Definition sample_functions : type_k_functions :=
  {| _type_k_dsdt_expo_function := fun _ => lit 0;
     _type_k_kn_expo_function := fun _ => lit 0;
     _type_k_seebeck_expo_function := fun _ => lit 0;
     _type_k_voltage_expo_function := fun _ => lit 0 |}.

(** ** Boolean tests, for evaluation on concrete inputs *)

(** [lo <= x <= hi] for the interval of an entry. *)
Definition containsb (x : float) (e : entry) : bool :=
  fle (fst (fst e)) x && fle x (snd (fst e)).

(** Equality of messages, exceptions and results. *)
Definition fragment_eqb (a b : fragment) : bool :=
  match a, b with
  | Text s, Text t => String.eqb s t
  | Num x, Num y => Qc_eq_bool x y
  | _, _ => false
  end.

Fixpoint message_eqb (a b : message) : bool :=
  match a, b with
  | [], [] => true
  | x :: a', y :: b' => fragment_eqb x y && message_eqb a' b'
  | _, _ => false
  end.

Definition exception_eqb (a b : exception) : bool :=
  match a, b with
  | ValueError m, ValueError n => message_eqb m n
  | NotImplementedError m, NotImplementedError n => message_eqb m n
  | _, _ => false
  end.

Definition result_eqb (a b : result float) : bool :=
  match a, b with
  | Return x, Return y => Qc_eq_bool x y
  | Raise e, Raise f => exception_eqb e f
  | _, _ => false
  end.

(** The result is a value strictly between two bounds. *)
Definition returns_between (lo hi : float) (r : result float) : bool :=
  match r with
  | Return v => negb (fle v lo) && negb (fle hi v)
  | Raise _ => false
  end.

(** The claim as the specification states it: from the exception alone a
    caller of [voltage_to_temperature_with_reference] can tell which of the
    two inner calls failed. *)
Definition error_names_table : Prop :=
  exists which : exception -> table_identity,
  forall (self : ThermocoupleType) (v_measured t_ref : float) (e : exception),
    voltage_to_temperature_with_reference self v_measured t_ref = Raise e ->
    (temperature_to_voltage self t_ref = Raise e -> which e = Forward) /\
    ((exists v_ref,
        temperature_to_voltage self t_ref = Return v_ref /\
        voltage_to_temperature self (v_measured + v_ref)%Qc = Raise e) ->
     which e = Inverse).

(** ** The convenience functions of [registry.py] *)

(** Each one resolves the type code with [get_thermocouple] and calls the
    method of the model found; an exception of the lookup ends the call. *)
Module registry.

Section Convenience.

Variables type_e type_k : type_module.
Variable type_k_expo : type_k_functions.

(** [registry.temperature_to_voltage]. *)
Definition temperature_to_voltage (tc_type : string) (temp_c : float)
    : result float :=
  tc <- get_thermocouple type_e type_k type_k_expo tc_type ;;
  temperature_to_voltage tc temp_c.

(** [registry.voltage_to_temperature]. *)
Definition voltage_to_temperature (tc_type : string) (voltage : float)
    : result float :=
  tc <- get_thermocouple type_e type_k type_k_expo tc_type ;;
  voltage_to_temperature tc voltage.

(** [registry.voltage_to_temperature_with_reference]. *)
Definition voltage_to_temperature_with_reference (tc_type : string)
    (v_measured t_ref : float) : result float :=
  tc <- get_thermocouple type_e type_k type_k_expo tc_type ;;
  voltage_to_temperature_with_reference tc v_measured t_ref.

(** [registry.temp_to_seebeck]. *)
Definition temp_to_seebeck (tc_type : string) (temp_c : float)
    : result float :=
  tc <- get_thermocouple type_e type_k type_k_expo tc_type ;;
  temperature_to_seebeck tc temp_c.

(** [registry.temp_to_dsdt]. *)
Definition temp_to_dsdt (tc_type : string) (temp_c : float)
    : result float :=
  tc <- get_thermocouple type_e type_k type_k_expo tc_type ;;
  temperature_to_dsdt tc temp_c.

End Convenience.

End registry.

(** ** Further notions *)

(** Horner's rule for a polynomial given by its coefficients, lowest power
    first. *)
Definition horner (coeffs : list float) (x : float) : float :=
  fold_right (fun c acc => (c + x * acc)%Qc) (lit 0) coeffs.

(** The larger of two numbers. *)
Definition fmax (x y : float) : float := if fle x y then y else x.

(** The entries of [tables] continue the interval from [a] to [b] without
    a gap: each starts inside what the earlier ones cover, and none is
    empty. *)
Fixpoint connected_from (a b : float) (tables : range_table) : bool :=
  match tables with
  | [] => true
  | ((lo, hi), _) :: rest =>
      fle a lo && fle lo b && fle lo hi && connected_from a (fmax b hi) rest
  end.

(** The largest upper bound among [b] and the entries of [tables]. *)
Fixpoint upper_end (b : float) (tables : range_table) : float :=
  match tables with
  | [] => b
  | ((_, hi), _) :: rest => upper_end (fmax b hi) rest
  end.

(** A table whose intervals, in declared order, touch or overlap, so that
    together they cover one closed interval. *)
Definition connected (tables : range_table) : bool :=
  match tables with
  | [] => false
  | ((lo, hi), _) :: rest => fle lo hi && connected_from lo hi rest
  end.

(** The two ends of what a table covers. *)
Definition domain (tables : range_table) : float * float :=
  match tables with
  | [] => (lit 0, lit 0)
  | ((lo, hi), _) :: rest => (lo, upper_end hi rest)
  end.

(** The six instances whose coefficient modules are available. *)
Definition available_instances : list ThermocoupleType :=
  [TYPE_B; TYPE_J; TYPE_N; TYPE_R; TYPE_S; TYPE_T].

(** The eight tables a model holds, an absent one read as empty. *)
Definition tables_of (self : ThermocoupleType) : list range_table :=
  [_temp_to_microvolt self; _microvolt_to_temp self;
   _temp_to_seebeck self; _temp_to_dsdt self;
   or_empty (_temp_to_microvolt_pos_leg self);
   or_empty (_temp_to_microvolt_neg_leg self);
   or_empty (_temp_to_seebeck_pos_leg self);
   or_empty (_temp_to_seebeck_neg_leg self)].

(** None of the six optional tables of a model is absent or empty. *)
Definition supports_every_quantity (self : ThermocoupleType) : bool :=
  forallb (fun t : range_table => negb (Nat.eqb (List.length t) 0))
    (skipn 2 (tables_of self)).

(** * Properties *)

(** ** Range selection *)

Lemma fle_true (x y : float) : fle x y = true <-> (x <= y)%Qc.
Proof. unfold fle, Qcle. apply Qle_bool_iff. Qed.

Lemma contains_true (x lo hi : float) (coeffs : list float) :
  fle lo x && fle x hi = true <-> in_interval x ((lo, hi), coeffs).
Proof.
  unfold in_interval; simpl.
  rewrite andb_true_iff, !fle_true. tauto.
Qed.

Lemma contains_false (x lo hi : float) (coeffs : list float) :
  fle lo x && fle x hi = false <-> ~ in_interval x ((lo, hi), coeffs).
Proof.
  rewrite <- contains_true. destruct (fle lo x && fle x hi); split; intros;
    congruence.
Qed.

Lemma select_coeffs_cons (self : ThermocoupleType) (x lo hi : float)
    (coeffs : list float) (rest : range_table) :
  _select_coeffs self x (((lo, hi), coeffs) :: rest) =
  if fle lo x && fle x hi then Return coeffs else _select_coeffs self x rest.
Proof. reflexivity. Qed.

(** A successful selection is the first match, and conversely. *)
Lemma select_coeffs_Return (self : ThermocoupleType) (x : float)
    (tables : range_table) (coeffs : list float) :
  _select_coeffs self x tables = Return coeffs <-> first_match x tables coeffs.
Proof.
  induction tables as [|[[lo hi] cs] rest IH].
  - split.
    + discriminate.
    + intros (pre & l & h & post & E & _). destruct pre; discriminate.
  - rewrite select_coeffs_cons.
    destruct (fle lo x && fle x hi) eqn:B.
    + apply contains_true with (coeffs := cs) in B. split.
      * intros [= <-]. exists [], lo, hi, rest.
        destruct B. repeat split; auto. constructor.
      * intros (pre & l & h & post & E & O & Hl & Hh).
        destruct pre as [|p pre]; simpl in E.
        -- now injection E as _ _ <- _.
        -- injection E as <- _. inversion O; subst. contradiction.
    + apply contains_false with (coeffs := cs) in B. rewrite IH. split.
      * intros (pre & l & h & post & E & O & Hl & Hh).
        exists (((lo, hi), cs) :: pre), l, h, post. subst rest.
        repeat split; auto. constructor; auto.
      * intros (pre & l & h & post & E & O & Hl & Hh).
        destruct pre as [|p pre]; simpl in E.
        -- injection E as -> -> _ _. exfalso. apply B. split; simpl; auto.
        -- injection E as _ ->. inversion O; subst.
           exists pre, l, h, post. repeat split; auto.
Qed.

(** A failed selection raises the one [ValueError] of the method, and does
    so exactly when no interval contains [x]. *)
Lemma select_coeffs_Raise (self : ThermocoupleType) (x : float)
    (tables : range_table) (e : exception) :
  _select_coeffs self x tables = Raise e <->
  outside x tables /\ e = ValueError (out_of_range_message x (_name self)).
Proof.
  unfold outside. induction tables as [|[[lo hi] cs] rest IH].
  - simpl. split.
    + intros [= <-]. split; [constructor | reflexivity].
    + intros [_ ->]. reflexivity.
  - rewrite select_coeffs_cons.
    destruct (fle lo x && fle x hi) eqn:B.
    + apply contains_true with (coeffs := cs) in B. split.
      * discriminate.
      * intros [O _]. inversion O; subst. contradiction.
    + apply contains_false with (coeffs := cs) in B. rewrite IH. split.
      * intros [O E]. split; [constructor|]; auto.
      * intros [O E]. inversion O; subst. auto.
Qed.

Lemma select_coeffs_outside (self : ThermocoupleType) (x : float)
    (tables : range_table) :
  outside x tables ->
  _select_coeffs self x tables =
  Raise (ValueError (out_of_range_message x (_name self))).
Proof. intros O. apply select_coeffs_Raise. auto. Qed.

(** Either some declared interval contains [x] or none does. *)
Lemma outside_dec (x : float) (tables : range_table) :
  outside x tables \/ Exists (in_interval x) tables.
Proof.
  unfold outside. induction tables as [|[[lo hi] cs] rest IH].
  - left. constructor.
  - destruct (fle lo x && fle x hi) eqn:B.
    + right. constructor. now apply contains_true with (coeffs := cs) in B.
    + apply contains_false with (coeffs := cs) in B.
      destruct IH as [O | E].
      * left. constructor; auto.
      * right. now constructor 2.
Qed.

Lemma outside_not_Exists (x : float) (tables : range_table) :
  outside x tables <-> ~ Exists (in_interval x) tables.
Proof.
  unfold outside. rewrite Forall_Exists_neg. tauto.
Qed.

Lemma first_match_Exists (x : float) (tables : range_table) :
  (exists coeffs, first_match x tables coeffs) <->
  Exists (in_interval x) tables.
Proof.
  split.
  - intros (cs & pre & lo & hi & post & -> & _ & Hl & Hh).
    apply Exists_app. right. constructor. split; simpl; auto.
  - intros E. set (self := without_corrections
      (__init__ "" [] [] None None None None None None None None None None)).
    destruct (_select_coeffs self x tables) as [cs|e] eqn:S.
    + exists cs. now apply select_coeffs_Return in S.
    + apply select_coeffs_Raise in S. destruct S as [O _].
      apply outside_not_Exists in O. contradiction.
Qed.

(** ** Polynomial evaluation *)

Lemma enumerate_from_snoc (A : Type) (l : list A) (c : A) (s : nat) :
  combine (seq s (List.length (l ++ [c]))) (l ++ [c]) =
  combine (seq s (List.length l)) l ++ [((s + List.length l)%nat, c)].
Proof.
  revert s. induction l as [|a l IH]; intros s; simpl.
  - now rewrite Nat.add_0_r.
  - rewrite IH. now rewrite Nat.add_succ_comm.
Qed.

Lemma enumerate_snoc (A : Type) (l : list A) (c : A) :
  enumerate (l ++ [c]) = enumerate l ++ [(List.length l, c)].
Proof. unfold enumerate. now rewrite enumerate_from_snoc. Qed.

Lemma big_sum_ext (n : nat) (f g : nat -> float) :
  (forall i, (i < n)%nat -> f i = g i) -> big_sum n f = big_sum n g.
Proof.
  induction n as [|n IH]; intros E; simpl.
  - reflexivity.
  - rewrite IH by (intros; apply E; lia). now rewrite E by lia.
Qed.

(** The generator expression summed by [_polyval] is the polynomial of the
    specification, term for term and in the same order. *)
Lemma polyval_polynomial (self : ThermocoupleType) (coeffs : list float)
    (x : float) :
  _polyval self coeffs x = polynomial coeffs x.
Proof.
  unfold _polyval, polynomial, sum.
  induction coeffs as [|c l IH] using rev_ind.
  - reflexivity.
  - rewrite enumerate_snoc, map_app, fold_left_app, IH. simpl.
    rewrite length_app, Nat.add_1_r. simpl.
    rewrite nth_middle. f_equal.
    apply big_sum_ext. intros i Hi. now rewrite app_nth1.
Qed.

(** ** C1: the range table evaluator *)


(** ** Deciding membership on concrete tables *)

Lemma containsb_true (x : float) (e : entry) :
  containsb x e = true <-> in_interval x e.
Proof. destruct e as [[lo hi] cs]. apply contains_true. Qed.

Lemma existsb_in_interval (x : float) (tables : range_table) :
  existsb (containsb x) tables = true -> Exists (in_interval x) tables.
Proof.
  rewrite existsb_exists, Exists_exists.
  intros (e & I & C). exists e. split; auto. now apply containsb_true.
Qed.

Lemma forallb_outside (x : float) (tables : range_table) :
  forallb (fun e => negb (containsb x e)) tables = true -> outside x tables.
Proof.
  unfold outside. rewrite forallb_forall, Forall_forall.
  intros H e I C. apply containsb_true in C. specialize (H e I).
  rewrite C in H. discriminate.
Qed.

(** ** C2: temperature to voltage *)

Lemma apply_expo_correction (f : option (float -> float)) (r x : float) :
  apply_expo f r x = (r + correction f x)%Qc.
Proof. destruct f; simpl; unfold lit; ring. Qed.

Lemma temperature_to_voltage_Return (self : ThermocoupleType)
    (T : float) (coeffs : list float) :
  first_match T (_temp_to_microvolt self) coeffs ->
  temperature_to_voltage self T =
  Return ((polynomial coeffs T
           + correction (_microvolt_expo_function self) T) / lit 1e6)%Qc.
Proof.
  intros F. apply select_coeffs_Return with (self := self) in F.
  unfold temperature_to_voltage. rewrite F. simpl.
  now rewrite apply_expo_correction, polyval_polynomial.
Qed.

Lemma temperature_to_voltage_Raise (self : ThermocoupleType) (T : float)
    (e : exception) :
  temperature_to_voltage self T = Raise e <->
  outside T (_temp_to_microvolt self) /\
  e = ValueError (out_of_range_message T (_name self)).
Proof.
  rewrite <- select_coeffs_Raise. unfold temperature_to_voltage.
  destruct (_select_coeffs self T (_temp_to_microvolt self)); simpl;
    split; congruence.
Qed.


(** ** C3: voltage to temperature *)

Lemma voltage_to_temperature_Return (self : ThermocoupleType)
    (V : float) (coeffs : list float) :
  first_match (V * lit 1e6)%Qc (_microvolt_to_temp self) coeffs ->
  voltage_to_temperature self V =
  Return (polynomial coeffs (V * lit 1e6)%Qc).
Proof.
  intros F. apply select_coeffs_Return with (self := self) in F.
  unfold voltage_to_temperature. simpl. rewrite F. simpl.
  now rewrite polyval_polynomial.
Qed.

Lemma voltage_to_temperature_Raise (self : ThermocoupleType) (V : float)
    (e : exception) :
  voltage_to_temperature self V = Raise e <->
  outside (V * lit 1e6)%Qc (_microvolt_to_temp self) /\
  e = ValueError (out_of_range_message (V * lit 1e6)%Qc (_name self)).
Proof.
  rewrite <- select_coeffs_Raise. unfold voltage_to_temperature. simpl.
  destruct (_select_coeffs self (V * lit 1e6)%Qc (_microvolt_to_temp self));
    simpl; split; congruence.
Qed.

Lemma select_coeffs_name (self self' : ThermocoupleType) (x : float)
    (tables : range_table) :
  _name self = _name self' ->
  _select_coeffs self x tables = _select_coeffs self' x tables.
Proof.
  intros N. induction tables as [|[[lo hi] cs] rest IH]; simpl.
  - now rewrite N.
  - now rewrite IH.
Qed.


(** ** C4: cold-junction compensation *)

Lemma with_reference_unfold (self : ThermocoupleType) (v_measured t_ref : float) :
  voltage_to_temperature_with_reference self v_measured t_ref =
  (v_ref <- temperature_to_voltage self t_ref ;;
   voltage_to_temperature self (v_measured + v_ref)%Qc).
Proof.
  unfold voltage_to_temperature_with_reference.
  destruct (temperature_to_voltage self t_ref) as [v_ref|e]; simpl; auto.
  now destruct (voltage_to_temperature self (v_measured + v_ref)%Qc).
Qed.


(** ** Evaluating a call on concrete inputs *)

Lemma fragment_eqb_true (a b : fragment) : fragment_eqb a b = true -> a = b.
Proof.
  destruct a, b; simpl; try discriminate.
  - intros E. apply String.eqb_eq in E. now subst.
  - intros E. apply Qc_eq_bool_correct in E. now subst.
Qed.

Lemma message_eqb_true (a b : message) : message_eqb a b = true -> a = b.
Proof.
  revert b. induction a as [|x a IH]; intros [|y b]; simpl; try discriminate.
  - reflexivity.
  - rewrite andb_true_iff. intros [E1 E2].
    apply fragment_eqb_true in E1. apply IH in E2. now subst.
Qed.

Lemma exception_eqb_true (a b : exception) : exception_eqb a b = true -> a = b.
Proof.
  destruct a, b; simpl; try discriminate; intros E;
    apply message_eqb_true in E; now subst.
Qed.

Lemma result_eqb_true (a b : result float) : result_eqb a b = true -> a = b.
Proof.
  destruct a, b; simpl; try discriminate; intros E.
  - apply Qc_eq_bool_correct in E. now subst.
  - apply exception_eqb_true in E. now subst.
Qed.

Lemma fle_false (x y : float) : fle x y = false <-> (y < x)%Qc.
Proof.
  split.
  - intros F. apply Qcnot_le_lt. intros L. apply fle_true in L. congruence.
  - intros L. destruct (fle x y) eqn:E; auto.
    apply fle_true in E. now apply Qcle_not_lt in E.
Qed.

Lemma returns_between_true (lo hi : float) (r : result float) :
  returns_between lo hi r = true ->
  exists v, r = Return v /\ (lo < v)%Qc /\ (v < hi)%Qc.
Proof.
  destruct r as [v|e]; simpl; try discriminate.
  rewrite andb_true_iff, !negb_true_iff, !fle_false. intros [L H].
  exists v. auto.
Qed.

(** A closed call evaluated by the virtual machine. *)
Ltac evaluate_call := apply result_eqb_true; vm_compute; reflexivity.

(** ** C5: what an out-of-range failure carries *)

Lemma type_b_forward_rejects :
  temperature_to_voltage TYPE_B (lit (-1000000)) =
  Raise (ValueError (out_of_range_message (lit (-1000000)) "B")).
Proof. evaluate_call. Qed.

Lemma type_b_forward_at_zero :
  temperature_to_voltage TYPE_B (lit 0) = Return (lit 0).
Proof. evaluate_call. Qed.

Lemma type_b_inverse_rejects :
  voltage_to_temperature TYPE_B (lit (-1) + lit 0)%Qc =
  Raise (ValueError (out_of_range_message (lit (-1000000)) "B")).
Proof. evaluate_call. Qed.



(** ** C6 and C10: optional tables *)

Lemma not_implemented_is_not_out_of_range (what name : string) (msg : message) :
  not_implemented what name <> ValueError msg.
Proof. discriminate. Qed.

(** Two models give the same results in every public method when they
    have the same name, the same mandatory tables and correction functions,
    and optional tables that are equal once [None] is read as the empty
    list, which is all the guards [if not ...] observe. *)
Lemma call_observes_truth_value (self self' : ThermocoupleType)
    (m : method) (a b : float) :
  _name self = _name self' ->
  _temp_to_microvolt self = _temp_to_microvolt self' ->
  _microvolt_to_temp self = _microvolt_to_temp self' ->
  _temp_to_seebeck self = _temp_to_seebeck self' ->
  _temp_to_dsdt self = _temp_to_dsdt self' ->
  or_empty (_temp_to_microvolt_pos_leg self) =
    or_empty (_temp_to_microvolt_pos_leg self') ->
  or_empty (_temp_to_microvolt_neg_leg self) =
    or_empty (_temp_to_microvolt_neg_leg self') ->
  or_empty (_temp_to_seebeck_pos_leg self) =
    or_empty (_temp_to_seebeck_pos_leg self') ->
  or_empty (_temp_to_seebeck_neg_leg self) =
    or_empty (_temp_to_seebeck_neg_leg self') ->
  _microvolt_expo_function self = _microvolt_expo_function self' ->
  _seebeck_expo_function self = _seebeck_expo_function self' ->
  _dsdt_expo_function self = _dsdt_expo_function self' ->
  _microvolt_neg_leg_expo_function self =
    _microvolt_neg_leg_expo_function self' ->
  call m self a b = call m self' a b.
Proof.
  intros N F I S D VP VN SP SN f1 f2 f3 f4.
  assert (Sel : forall x t, _select_coeffs self x t = _select_coeffs self' x t)
    by (intros; now apply select_coeffs_name).
  assert (TV : forall t, temperature_to_voltage self t
                         = temperature_to_voltage self' t).
  { intros t. unfold temperature_to_voltage. now rewrite Sel, F, f1. }
  assert (VT : forall v, voltage_to_temperature self v
                         = voltage_to_temperature self' v).
  { intros v. unfold voltage_to_temperature. simpl. now rewrite Sel, I. }
  destruct m; simpl; auto.
  - unfold temperature_to_seebeck. rewrite S, N, f2.
    destruct (_temp_to_seebeck self'); auto. now rewrite Sel.
  - unfold temperature_to_dsdt. rewrite D, N, f3.
    destruct (_temp_to_dsdt self'); auto. now rewrite Sel.
  - unfold temperature_to_volt_pos_leg. rewrite N.
    destruct (_temp_to_microvolt_pos_leg self) as [[|e r]|],
             (_temp_to_microvolt_pos_leg self') as [[|e' r']|];
      simpl in VP; try discriminate; auto.
    injection VP as -> ->. now rewrite Sel.
  - unfold temperature_to_volt_neg_leg. rewrite N, f4.
    destruct (_temp_to_microvolt_neg_leg self) as [[|e r]|],
             (_temp_to_microvolt_neg_leg self') as [[|e' r']|];
      simpl in VN; try discriminate; auto.
    injection VN as -> ->. now rewrite Sel.
  - unfold temperature_to_seebeck_pos_leg. rewrite N.
    destruct (_temp_to_seebeck_pos_leg self) as [[|e r]|],
             (_temp_to_seebeck_pos_leg self') as [[|e' r']|];
      simpl in SP; try discriminate; auto.
    injection SP as -> ->. now rewrite Sel.
  - unfold temperature_to_seebeck_neg_leg. rewrite N.
    destruct (_temp_to_seebeck_neg_leg self) as [[|e r]|],
             (_temp_to_seebeck_neg_leg self') as [[|e' r']|];
      simpl in SN; try discriminate; auto.
    injection SN as -> ->. now rewrite Sel.
  - unfold voltage_to_temperature_with_reference. rewrite TV.
    destruct (temperature_to_voltage self' b); simpl; auto. now rewrite VT.
Qed.

Section OptionalTables.

(** The arguments of a call of the constructor. *)
Variable name : string.
Variables temp_to_microvolt microvolt_to_temp : range_table.
Variables temp_to_seebeck temp_to_dsdt : option range_table.
Variables temp_to_microvolt_pos_leg temp_to_microvolt_neg_leg : option range_table.
Variables temp_to_seebeck_pos_leg temp_to_seebeck_neg_leg : option range_table.
Variables microvolt_expo_function seebeck_expo_function : option (float -> float).
Variables dsdt_expo_function microvolt_neg_leg_expo_function : option (float -> float).

(** The constructor with its six optional tables left open. *)
Local Notation "'build' sb ds vp vn sp sn" :=
  (__init__ name temp_to_microvolt microvolt_to_temp sb ds vp vn sp sn
     microvolt_expo_function seebeck_expo_function
     dsdt_expo_function microvolt_neg_leg_expo_function)
  (at level 10, sb, ds, vp, vn, sp, sn at level 9, only parsing).

(** C6.  When the optional table of a quantity is absent ([None] passed to
    the constructor), the operation for that quantity raises
    [NotImplementedError] at every temperature, whatever the other
    arguments are: it returns no value, zero or other, and the exception is
    not the out-of-range [ValueError]. *)
Theorem absent_table_is_unsupported (temp_c : float) :
  temperature_to_seebeck
    (build None temp_to_dsdt temp_to_microvolt_pos_leg
       temp_to_microvolt_neg_leg temp_to_seebeck_pos_leg
       temp_to_seebeck_neg_leg) temp_c =
  Raise (not_implemented "Seebeck coefficient" name) /\
  temperature_to_dsdt
    (build temp_to_seebeck None temp_to_microvolt_pos_leg
       temp_to_microvolt_neg_leg temp_to_seebeck_pos_leg
       temp_to_seebeck_neg_leg) temp_c =
  Raise (not_implemented "dSeebeck/dT" name) /\
  temperature_to_volt_pos_leg
    (build temp_to_seebeck temp_to_dsdt None
       temp_to_microvolt_neg_leg temp_to_seebeck_pos_leg
       temp_to_seebeck_neg_leg) temp_c =
  Raise (not_implemented "Thermovoltage positive leg" name) /\
  temperature_to_volt_neg_leg
    (build temp_to_seebeck temp_to_dsdt temp_to_microvolt_pos_leg
       None temp_to_seebeck_pos_leg
       temp_to_seebeck_neg_leg) temp_c =
  Raise (not_implemented "Thermovoltage negative leg" name) /\
  temperature_to_seebeck_pos_leg
    (build temp_to_seebeck temp_to_dsdt temp_to_microvolt_pos_leg
       temp_to_microvolt_neg_leg None
       temp_to_seebeck_neg_leg) temp_c =
  Raise (not_implemented "Seebeck coefficient positive leg" name) /\
  temperature_to_seebeck_neg_leg
    (build temp_to_seebeck temp_to_dsdt temp_to_microvolt_pos_leg
       temp_to_microvolt_neg_leg temp_to_seebeck_pos_leg
       None) temp_c =
  Raise (not_implemented "Seebeck coefficient negative leg" name) /\
  (forall what msg, not_implemented what name <> ValueError msg) /\
  (forall what (v : float), Raise (not_implemented what name) <> Return v).
Proof.
  repeat split; try reflexivity; discriminate.
Qed.

(** C10.  A model built with the empty list for an optional table behaves,
    in every public method and on every input, as the model built with that
    table absent; and the operation of that table raises
    [NotImplementedError] at every temperature, which is neither a value
    nor the out-of-range [ValueError]. *)
Theorem empty_table_is_absent_table (m : method) (a b temp_c : float) :
  (call m (build (Some []) temp_to_dsdt temp_to_microvolt_pos_leg
             temp_to_microvolt_neg_leg temp_to_seebeck_pos_leg
             temp_to_seebeck_neg_leg) a b =
   call m (build None temp_to_dsdt temp_to_microvolt_pos_leg
             temp_to_microvolt_neg_leg temp_to_seebeck_pos_leg
             temp_to_seebeck_neg_leg) a b /\
   temperature_to_seebeck
     (build (Some []) temp_to_dsdt temp_to_microvolt_pos_leg
        temp_to_microvolt_neg_leg temp_to_seebeck_pos_leg
        temp_to_seebeck_neg_leg) temp_c =
   Raise (not_implemented "Seebeck coefficient" name)) /\
  (call m (build temp_to_seebeck (Some []) temp_to_microvolt_pos_leg
             temp_to_microvolt_neg_leg temp_to_seebeck_pos_leg
             temp_to_seebeck_neg_leg) a b =
   call m (build temp_to_seebeck None temp_to_microvolt_pos_leg
             temp_to_microvolt_neg_leg temp_to_seebeck_pos_leg
             temp_to_seebeck_neg_leg) a b /\
   temperature_to_dsdt
     (build temp_to_seebeck (Some []) temp_to_microvolt_pos_leg
        temp_to_microvolt_neg_leg temp_to_seebeck_pos_leg
        temp_to_seebeck_neg_leg) temp_c =
   Raise (not_implemented "dSeebeck/dT" name)) /\
  (call m (build temp_to_seebeck temp_to_dsdt (Some [])
             temp_to_microvolt_neg_leg temp_to_seebeck_pos_leg
             temp_to_seebeck_neg_leg) a b =
   call m (build temp_to_seebeck temp_to_dsdt None
             temp_to_microvolt_neg_leg temp_to_seebeck_pos_leg
             temp_to_seebeck_neg_leg) a b /\
   temperature_to_volt_pos_leg
     (build temp_to_seebeck temp_to_dsdt (Some [])
        temp_to_microvolt_neg_leg temp_to_seebeck_pos_leg
        temp_to_seebeck_neg_leg) temp_c =
   Raise (not_implemented "Thermovoltage positive leg" name)) /\
  (call m (build temp_to_seebeck temp_to_dsdt temp_to_microvolt_pos_leg
             (Some []) temp_to_seebeck_pos_leg
             temp_to_seebeck_neg_leg) a b =
   call m (build temp_to_seebeck temp_to_dsdt temp_to_microvolt_pos_leg
             None temp_to_seebeck_pos_leg
             temp_to_seebeck_neg_leg) a b /\
   temperature_to_volt_neg_leg
     (build temp_to_seebeck temp_to_dsdt temp_to_microvolt_pos_leg
        (Some []) temp_to_seebeck_pos_leg
        temp_to_seebeck_neg_leg) temp_c =
   Raise (not_implemented "Thermovoltage negative leg" name)) /\
  (call m (build temp_to_seebeck temp_to_dsdt temp_to_microvolt_pos_leg
             temp_to_microvolt_neg_leg (Some [])
             temp_to_seebeck_neg_leg) a b =
   call m (build temp_to_seebeck temp_to_dsdt temp_to_microvolt_pos_leg
             temp_to_microvolt_neg_leg None
             temp_to_seebeck_neg_leg) a b /\
   temperature_to_seebeck_pos_leg
     (build temp_to_seebeck temp_to_dsdt temp_to_microvolt_pos_leg
        temp_to_microvolt_neg_leg (Some [])
        temp_to_seebeck_neg_leg) temp_c =
   Raise (not_implemented "Seebeck coefficient positive leg" name)) /\
  (call m (build temp_to_seebeck temp_to_dsdt temp_to_microvolt_pos_leg
             temp_to_microvolt_neg_leg temp_to_seebeck_pos_leg
             (Some [])) a b =
   call m (build temp_to_seebeck temp_to_dsdt temp_to_microvolt_pos_leg
             temp_to_microvolt_neg_leg temp_to_seebeck_pos_leg
             None) a b /\
   temperature_to_seebeck_neg_leg
     (build temp_to_seebeck temp_to_dsdt temp_to_microvolt_pos_leg
        temp_to_microvolt_neg_leg temp_to_seebeck_pos_leg
        (Some [])) temp_c =
   Raise (not_implemented "Seebeck coefficient negative leg" name)).
Proof.
  repeat split; try reflexivity;
    apply call_observes_truth_value; reflexivity.
Qed.

End OptionalTables.

(** ** C7 and C8: the registry *)

Lemma dict_get_In (V : Type) (d : dict V) (k : string) (v : V) :
  dict_get d k = Some v -> In (k, v) d.
Proof.
  induction d as [|[k' v'] d IH]; simpl.
  - discriminate.
  - destruct (String.eqb_spec k k') as [->|_].
    + intros [= ->]. now left.
    + intros G. right. auto.
Qed.

Section RegistryFacts.

Variables type_e type_k : type_module.
Variable type_k_expo : type_k_functions.

Local Notation "'types'" := (THERMOCOUPLE_TYPES type_e type_k type_k_expo).
Local Notation "'get'" := (get_thermocouple type_e type_k type_k_expo).

Lemma available_types :
  String.concat ", " (sorted (keys types)) = "B, E, J, K, N, R, S, T"%string.
Proof. reflexivity. Qed.

(** A successful lookup in the registry: the key is one of the eight
    letters and the model found carries it as its name. *)
Lemma registry_lookup_Some (k : string) (tc : ThermocoupleType) :
  dict_get types k = Some tc -> In k type_codes /\ _name tc = k.
Proof.
  intros G. apply dict_get_In in G.
  unfold THERMOCOUPLE_TYPES, type_codes in *. simpl in G.
  repeat (destruct G as [[= <- <-]|G];
          [split; [simpl; tauto | reflexivity]|]).
  destruct G.
Qed.

Lemma registry_lookup_None (k : string) :
  dict_get types k = None <-> ~ In k type_codes.
Proof.
  split.
  - intros N I. unfold type_codes in I. simpl in I.
    repeat (destruct I as [<-|I]; [cbn in N; discriminate N|]). destruct I.
  - intros NI. destruct (dict_get types k) as [tc|] eqn:E; auto.
    apply registry_lookup_Some in E. tauto.
Qed.



End RegistryFacts.

(** ** C9: the round trip *)

(** Facts of the coefficient data.  At 630.615, a boundary the two
    forward entries of type B share, the entry declared first is
    selected. *)
Lemma type_b_shared_boundary :
  in_interval (lit 630.615) (nth 0 (_temp_to_microvolt TYPE_B) ((lit 0, lit 0), [])) /\
  in_interval (lit 630.615) (nth 1 (_temp_to_microvolt TYPE_B) ((lit 0, lit 0), [])) /\
  _select_coeffs TYPE_B (lit 630.615) (_temp_to_microvolt TYPE_B) =
  Return (snd (nth 0 (_temp_to_microvolt TYPE_B) ((lit 0, lit 0), []))).
Proof.
  split; [|split].
  - split; vm_compute; discriminate.
  - split; vm_compute; discriminate.
  - vm_compute. reflexivity.
Qed.

(** The temperatures the tests check: B at 500, R and S at 200 within
    0.5, and J, T and N at 25 within 0.1. *)
Lemma round_trip_at_test_points :
  (exists v, round_trip TYPE_B (lit 500) = Return v /\
             (lit 499.5 < v)%Qc /\ (v < lit 500.5)%Qc) /\
  (exists v, round_trip TYPE_R (lit 200) = Return v /\
             (lit 199.5 < v)%Qc /\ (v < lit 200.5)%Qc) /\
  (exists v, round_trip TYPE_S (lit 200) = Return v /\
             (lit 199.5 < v)%Qc /\ (v < lit 200.5)%Qc) /\
  (exists v, round_trip TYPE_J (lit 25) = Return v /\
             (lit 24.9 < v)%Qc /\ (v < lit 25.1)%Qc) /\
  (exists v, round_trip TYPE_T (lit 25) = Return v /\
             (lit 24.9 < v)%Qc /\ (v < lit 25.1)%Qc) /\
  (exists v, round_trip TYPE_N (lit 25) = Return v /\
             (lit 24.9 < v)%Qc /\ (v < lit 25.1)%Qc).
Proof.
  repeat split; apply returns_between_true; vm_compute; reflexivity.
Qed.

(** C9, where the code departs from it.  For type N, a standard type, the
    round trip of 500 degrees, well inside the forward domain from -270 to
    1300, returns a temperature between 483 and 484: more than 16 degrees
    away, where the claim allows 0.1. *)
Theorem round_trip_type_n_500_off_by_16 :
  Exists (in_interval (lit 500)) (_temp_to_microvolt TYPE_N) /\
  exists v, round_trip TYPE_N (lit 500) = Return v /\
            (lit 483 < v)%Qc /\ (v < lit 484)%Qc.
Proof.
  split.
  - apply existsb_in_interval. vm_compute. reflexivity.
  - apply returns_between_true. vm_compute. reflexivity.
Qed.

(** For type B the forward table gives 61348.528384025 microvolts at 1000
    degrees, above the 13820 microvolts at which the inverse table ends, so
    the round trip raises. *)
Lemma round_trip_type_b_1000_raises :
  Exists (in_interval (lit 1000)) (_temp_to_microvolt TYPE_B) /\
  round_trip TYPE_B (lit 1000) =
  Raise (ValueError (out_of_range_message (lit 61348.528384025) "B")).
Proof.
  split.
  - apply existsb_in_interval. vm_compute. reflexivity.
  - evaluate_call.
Qed.

(** For type R the round trip of 1700 degrees returns more than 28000. *)
Lemma round_trip_type_r_1700_off :
  Exists (in_interval (lit 1700)) (_temp_to_microvolt TYPE_R) /\
  exists v, round_trip TYPE_R (lit 1700) = Return v /\
            (lit 28000 < v)%Qc /\ (v < lit 29000)%Qc.
Proof.
  split.
  - apply existsb_in_interval. vm_compute. reflexivity.
  - apply returns_between_true. vm_compute. reflexivity.
Qed.

(** The inverse table of type N is documented in [type_n.py] as mapping
    0 to 20613 microvolts onto 0 to 600 degrees; at 20613 microvolts it
    returns a temperature between 562 and 563. *)
Lemma type_n_inverse_at_20613_microvolt :
  exists v, voltage_to_temperature TYPE_N (lit 0.020613) = Return v /\
            (lit 562 < v)%Qc /\ (v < lit 563)%Qc.
Proof. apply returns_between_true. vm_compute. reflexivity. Qed.

(** The docstring of [type_b.py] gives 13.820 mV as the upper end of the
    EMF range, reached at 1820 degrees; the forward table returns more than
    243 mV there. *)
Lemma type_b_forward_at_1820 :
  exists v, temperature_to_voltage TYPE_B (lit 1820) = Return v /\
            (lit 0.243 < v)%Qc /\ (v < lit 0.244)%Qc.
Proof. apply returns_between_true. vm_compute. reflexivity. Qed.

(** ** Out-of-range signalling *)

(** A value strictly below the lower bound of every entry, or strictly
    above the upper bound of every entry, is rejected. *)
Theorem strictly_outside_raises (self : ThermocoupleType)
    (tables : range_table) (x : float) :
  Forall (fun e : entry => (x < fst (fst e))%Qc) tables \/
  Forall (fun e : entry => (snd (fst e) < x)%Qc) tables ->
  evaluate self tables x =
  Raise (ValueError (out_of_range_message x (_name self))).
Proof.
  intros H. unfold evaluate. rewrite select_coeffs_outside; [reflexivity|].
  unfold outside. destruct H as [H|H];
    (eapply Forall_impl; [|exact H]); intros e L [Hl Hh].
  - now apply Qcle_not_lt in Hl.
  - now apply Qcle_not_lt in Hh.
Qed.

(** ** The theorems on concrete calls *)

Lemma strictly_outside_raises_witness :
  evaluate TYPE_B (_temp_to_microvolt TYPE_B) (lit (-1)) =
  Raise (ValueError (out_of_range_message (lit (-1)) "B")).
Proof.
  apply (@strictly_outside_raises TYPE_B (_temp_to_microvolt TYPE_B)
           (lit (-1))).
  left. repeat constructor.
Defined.







(** * Further properties of the code *)

(** ** [_polyval] and Horner's rule *)

Lemma big_sum_shift (n : nat) (f : nat -> float) :
  big_sum (S n) f = (f 0%nat + big_sum n (fun i => f (S i)))%Qc.
Proof.
  induction n as [|n IH].
  - simpl. unfold lit. ring.
  - change (big_sum (S (S n)) f) with (big_sum (S n) f + f (S n))%Qc.
    rewrite IH. simpl. ring.
Qed.

Lemma big_sum_scale (n : nat) (f : nat -> float) (x : float) :
  big_sum n (fun i => (x * f i)%Qc) = (x * big_sum n f)%Qc.
Proof.
  induction n as [|n IH]; simpl.
  - unfold lit. ring.
  - rewrite IH. ring.
Qed.

Lemma polynomial_cons (c : float) (l : list float) (x : float) :
  polynomial (c :: l) x = (c + x * polynomial l x)%Qc.
Proof.
  unfold polynomial. simpl List.length. rewrite big_sum_shift. simpl nth.
  rewrite <- big_sum_scale. f_equal.
  - simpl. ring.
  - apply big_sum_ext. intros i _. simpl. ring.
Qed.


(** ** What the methods raise *)

Lemma temperature_to_voltage_returns (self : ThermocoupleType) (T : float) :
  (exists v, temperature_to_voltage self T = Return v) <->
  Exists (in_interval T) (_temp_to_microvolt self).
Proof.
  rewrite <- first_match_Exists. split.
  - intros [v R]. unfold temperature_to_voltage in R.
    destruct (_select_coeffs self T (_temp_to_microvolt self)) as [cs|e] eqn:S;
      [|discriminate].
    exists cs. now apply select_coeffs_Return in S.
  - intros [cs F]. eexists. apply temperature_to_voltage_Return. exact F.
Qed.

Lemma voltage_to_temperature_returns (self : ThermocoupleType) (V : float) :
  (exists t, voltage_to_temperature self V = Return t) <->
  Exists (in_interval (V * lit 1e6)%Qc) (_microvolt_to_temp self).
Proof.
  rewrite <- first_match_Exists. split.
  - intros [v R]. unfold voltage_to_temperature in R. simpl in R.
    destruct (_select_coeffs self (V * lit 1e6)%Qc (_microvolt_to_temp self))
      as [cs|e] eqn:S; [|discriminate].
    exists cs. now apply select_coeffs_Return in S.
  - intros [cs F]. eexists. apply voltage_to_temperature_Return. exact F.
Qed.

(** A guarded lookup followed by the polynomial, as the six optional
    methods have it, raises only the out-of-range [ValueError]. *)
Lemma select_then_raises (self : ThermocoupleType) (x : float)
    (tables : range_table) (k : list float -> result float) (e : exception) :
  (forall cs, k cs <> Raise e) ->
  (cs <- _select_coeffs self x tables ;; k cs) = Raise e ->
  e = ValueError (out_of_range_message x (_name self)).
Proof.
  intros K R. destruct (_select_coeffs self x tables) as [cs|e'] eqn:S;
    simpl in R.
  - now apply K in R.
  - injection R as <-. now apply select_coeffs_Raise in S.
Qed.



(** ** The optional methods when their table is present *)

Lemma guarded_Return (self : ThermocoupleType) (x : float)
    (tables : range_table) (k : list float -> result float)
    (coeffs : list float) :
  first_match x tables coeffs ->
  (cs <- _select_coeffs self x tables ;; k cs) = k coeffs.
Proof.
  intros F. apply select_coeffs_Return with (self := self) in F.
  now rewrite F.
Qed.

Lemma guarded_Raise (self : ThermocoupleType) (x : float)
    (tables : range_table) (k : list float -> result float) :
  outside x tables ->
  (cs <- _select_coeffs self x tables ;; k cs) =
  Raise (ValueError (out_of_range_message x (_name self))).
Proof. intros O. now rewrite select_coeffs_outside. Qed.





(** ** Compensation with nothing to compensate *)

Lemma Qc_zero_plus (v : float) : (lit 0 + v)%Qc = v.
Proof. unfold lit. ring. Qed.

Lemma Qc_plus_zero (v : float) : (v + lit 0)%Qc = v.
Proof. unfold lit. ring. Qed.

(** With a measured voltage of zero the compensated conversion is the
    round trip of the reference temperature; and when the forward table
    gives zero volts at the reference temperature the compensated
    conversion is the plain conversion of the measured voltage. *)
Theorem compensation_without_offset (self : ThermocoupleType)
    (v_measured t_ref : float) :
  voltage_to_temperature_with_reference self (lit 0) t_ref =
  round_trip self t_ref /\
  (temperature_to_voltage self t_ref = Return (lit 0) ->
   voltage_to_temperature_with_reference self v_measured t_ref =
   voltage_to_temperature self v_measured).
Proof.
  split.
  - rewrite with_reference_unfold. unfold round_trip.
    destruct (temperature_to_voltage self t_ref) as [v|e]; simpl; auto.
    now rewrite Qc_zero_plus.
  - intros Z. rewrite with_reference_unfold, Z. simpl.
    now rewrite Qc_plus_zero.
Qed.

Lemma compensation_without_offset_witness :
  voltage_to_temperature_with_reference TYPE_B (lit 0.002) (lit 0) =
  voltage_to_temperature TYPE_B (lit 0.002).
Proof.
  apply (proj2 (compensation_without_offset TYPE_B (lit 0.002) (lit 0))).
  exact type_b_forward_at_zero.
Defined.

(** For the six instances whose tables are available the forward table
    gives exactly zero volts at 0 degrees, so a reference junction at 0
    degrees changes nothing: the compensated conversion of any voltage is
    its plain conversion. *)
Theorem reference_at_zero_degrees (v_measured : float) :
  Forall (fun tc =>
            temperature_to_voltage tc (lit 0) = Return (lit 0) /\
            voltage_to_temperature_with_reference tc v_measured (lit 0) =
            voltage_to_temperature tc v_measured)
         available_instances.
Proof.
  assert (Z : Forall (fun tc => temperature_to_voltage tc (lit 0)
                                = Return (lit 0)) available_instances).
  { unfold available_instances.
    repeat (constructor; [apply result_eqb_true; vm_compute; reflexivity|]).
    constructor. }
  eapply Forall_impl; [|exact Z]. intros tc E. split; auto.
  rewrite with_reference_unfold, E. simpl. now rewrite Qc_plus_zero.
Qed.

(** ** The domain of a table *)

Lemma cover_step (a b lo hi x : float) :
  (a <= lo)%Qc -> (lo <= b)%Qc -> (lo <= hi)%Qc ->
  (((a <= x)%Qc /\ (x <= b)%Qc) \/ ((lo <= x)%Qc /\ (x <= hi)%Qc) <->
   (a <= x)%Qc /\ (x <= fmax b hi)%Qc).
Proof.
  unfold fmax. destruct (fle b hi) eqn:E.
  - apply fle_true in E. unfold Qcle in *. split; intros; lra.
  - apply fle_false in E. unfold Qcle, Qclt in *. split; intros; lra.
Qed.

Lemma fmax_above (b hi : float) : (b <= fmax b hi)%Qc.
Proof.
  unfold fmax. destruct (fle b hi) eqn:E.
  - now apply fle_true in E.
  - apply Qcle_refl.
Qed.

Lemma connected_from_covers (rest : range_table) :
  forall a b x,
    connected_from a b rest = true -> (a <= b)%Qc ->
    (((a <= x)%Qc /\ (x <= b)%Qc) \/ Exists (in_interval x) rest <->
     (a <= x)%Qc /\ (x <= upper_end b rest)%Qc).
Proof.
  induction rest as [|[[lo hi] cs] rest IH]; intros a b x C AB; simpl in *.
  - split; [intros [H|H]; [exact H | inversion H] | auto].
  - rewrite !andb_true_iff, !fle_true in C.
    destruct C as [[[Alo Lob] Lohi] C].
    rewrite <- (IH a (fmax b hi) x C)
      by (eapply Qcle_trans; [exact AB | apply fmax_above]).
    rewrite <- (cover_step x Alo Lob Lohi), Exists_cons.
    unfold in_interval; simpl. tauto.
Qed.

Lemma connected_covers (tables : range_table) (x : float) :
  connected tables = true ->
  (Exists (in_interval x) tables <->
   (fst (domain tables) <= x)%Qc /\ (x <= snd (domain tables))%Qc).
Proof.
  destruct tables as [|[[lo hi] cs] rest]; simpl; [discriminate|].
  rewrite andb_true_iff, fle_true. intros [Lohi C].
  rewrite <- (connected_from_covers rest x C Lohi), Exists_cons.
  unfold in_interval; simpl. tauto.
Qed.



(** The temperatures [temperature_to_voltage] accepts, for the six
    instances whose tables are available: it returns a value exactly on
    the closed range given, in degrees Celsius. *)
Theorem forward_domains (T : float) :
  ((exists v, temperature_to_voltage TYPE_B T = Return v) <->
   (lit 0 <= T)%Qc /\ (T <= lit 1820)%Qc) /\
  ((exists v, temperature_to_voltage TYPE_J T = Return v) <->
   (lit (-210) <= T)%Qc /\ (T <= lit 1200)%Qc) /\
  ((exists v, temperature_to_voltage TYPE_N T = Return v) <->
   (lit (-270) <= T)%Qc /\ (T <= lit 1300)%Qc) /\
  ((exists v, temperature_to_voltage TYPE_R T = Return v) <->
   (lit (-50) <= T)%Qc /\ (T <= lit 1768.1)%Qc) /\
  ((exists v, temperature_to_voltage TYPE_S T = Return v) <->
   (lit (-50) <= T)%Qc /\ (T <= lit 1768.1)%Qc) /\
  ((exists v, temperature_to_voltage TYPE_T T = Return v) <->
   (lit (-270) <= T)%Qc /\ (T <= lit 400)%Qc).
Proof.
  repeat match goal with |- _ /\ _ => split end;
    rewrite temperature_to_voltage_returns;
    (rewrite connected_covers by (vm_compute; reflexivity));
    exact (iff_refl _).
Qed.


(** ** Entries that are never selected *)

Lemma covered_entry_skipped (self : ThermocoupleType) (x : float)
    (pre : range_table) (e : entry) (post : range_table) :
  (in_interval x e -> Exists (in_interval x) pre) ->
  _select_coeffs self x (pre ++ e :: post) = _select_coeffs self x (pre ++ post).
Proof.
  induction pre as [|[[lo hi] cs] pre IH]; intros H.
  - destruct e as [[lo hi] cs]. simpl.
    destruct (fle lo x && fle x hi) eqn:B; auto.
    apply contains_true with (coeffs := cs) in B. apply H in B. inversion B.
  - simpl. destruct (fle lo x && fle x hi) eqn:B; auto.
    apply contains_false with (coeffs := cs) in B.
    apply IH. intros I. apply H in I. inversion I; subst; tauto.
Qed.

(** An entry whose interval is covered by the entries declared before it
    is never selected: the table selects as it would without that entry. *)
Theorem covered_entry_is_never_selected (self : ThermocoupleType)
    (pre : range_table) (e : entry) (post : range_table) :
  (forall x, in_interval x e -> Exists (in_interval x) pre) ->
  forall x,
    _select_coeffs self x (pre ++ e :: post) =
    _select_coeffs self x (pre ++ post).
Proof. intros H x. apply covered_entry_skipped. apply H. Qed.

Lemma type_n_additional_range_covered (x : float) :
  in_interval x (nth 3 (_microvolt_to_temp TYPE_N) ((lit 0, lit 0), [])) ->
  Exists (in_interval x) (firstn 3 (_microvolt_to_temp TYPE_N)).
Proof.
  intros [L U].
  apply (@connected_covers (firstn 3 (_microvolt_to_temp TYPE_N)) x).
  - vm_compute. reflexivity.
  - split.
    + eapply Qcle_trans; [|exact L]. vm_compute. discriminate.
    + exact U.
Qed.

Lemma covered_entry_is_never_selected_witness :
  _select_coeffs TYPE_N (lit 30000)
    (firstn 3 (_microvolt_to_temp TYPE_N)
       ++ nth 3 (_microvolt_to_temp TYPE_N) ((lit 0, lit 0), []) :: []) =
  _select_coeffs TYPE_N (lit 30000)
    (firstn 3 (_microvolt_to_temp TYPE_N) ++ []).
Proof.
  apply (@covered_entry_is_never_selected TYPE_N
           (firstn 3 (_microvolt_to_temp TYPE_N))
           (nth 3 (_microvolt_to_temp TYPE_N) ((lit 0, lit 0), [])) []
           type_n_additional_range_covered (lit 30000)).
Defined.

(** The fourth inverse entry of type N, the additional range from 0 to
    47513 microvolts, is never used: [voltage_to_temperature] gives, for
    every voltage, the result of the model whose inverse table is cut to
    its first three entries. *)
Theorem type_n_additional_range_is_dead (V : float) :
  List.length (_microvolt_to_temp TYPE_N) = 4%nat /\
  voltage_to_temperature TYPE_N V =
  voltage_to_temperature
    (__init__ "N" N_TEMP_TO_MICROVOLT (firstn 3 N_MICROVOLT_TO_TEMP)
       (Some N_TEMP_TO_SEEBECK) (Some N_TEMP_TO_DSDT)
       (Some N_TEMP_TO_MICROVOLT_POS_LEG) (Some N_TEMP_TO_MICROVOLT_NEG_LEG)
       (Some N_TEMP_TO_SEEBECK_POS_LEG) (Some N_TEMP_TO_SEEBECK_NEG_LEG)
       None None None None) V.
Proof.
  split; [reflexivity|].
  unfold voltage_to_temperature. cbv zeta.
  change (_microvolt_to_temp TYPE_N)
    with (firstn 3 (_microvolt_to_temp TYPE_N)
            ++ nth 3 (_microvolt_to_temp TYPE_N) ((lit 0, lit 0), []) :: []).
  rewrite (@covered_entry_skipped TYPE_N (V * lit 1e6)%Qc _ _ []
             (@type_n_additional_range_covered (V * lit 1e6)%Qc)).
  rewrite app_nil_r. reflexivity.
Qed.

(** ** The platinum leg of types R and S *)

Lemma zero_polynomial (self : ThermocoupleType) (c x : float) :
  Qc_eq_bool c (lit 0) = true -> _polyval self [c] x = lit 0.
Proof.
  intros E. apply Qc_eq_bool_correct in E. subst c.
  unfold _polyval, sum, enumerate. simpl. unfold lit. ring.
Qed.

Lemma zero_over (c : float) : (lit 0 / c)%Qc = lit 0.
Proof. unfold Qcdiv, lit. ring. Qed.

(** Types R and S have pure platinum as their negative leg.  Their
    positive-leg methods give what the methods of the pair give, at every
    temperature; their negative-leg voltage and Seebeck coefficient are
    zero from -50 to 1768.1 degrees and out of range elsewhere. *)
Theorem platinum_negative_leg (T : float) :
  Forall (fun tc =>
            temperature_to_volt_pos_leg tc T = temperature_to_voltage tc T /\
            temperature_to_seebeck_pos_leg tc T = temperature_to_seebeck tc T /\
            ((lit (-50) <= T)%Qc /\ (T <= lit 1768.1)%Qc ->
             temperature_to_volt_neg_leg tc T = Return (lit 0) /\
             temperature_to_seebeck_neg_leg tc T = Return (lit 0)) /\
            (~ ((lit (-50) <= T)%Qc /\ (T <= lit 1768.1)%Qc) ->
             temperature_to_volt_neg_leg tc T =
             Raise (ValueError (out_of_range_message T (_name tc))) /\
             temperature_to_seebeck_neg_leg tc T =
             Raise (ValueError (out_of_range_message T (_name tc)))))
         [TYPE_R; TYPE_S].
Proof.
  apply Forall_cons; [|apply Forall_cons; [|apply Forall_nil]].
  - split; [reflexivity|]. split; [reflexivity|]. split.
    + intros I. apply contains_true with (coeffs := []) in I.
      unfold temperature_to_volt_neg_leg, temperature_to_seebeck_neg_leg.
      cbn -[fle Qcdiv _polyval]. rewrite I. cbn -[Qcdiv _polyval lit].
      rewrite !zero_polynomial by (vm_compute; reflexivity).
      now rewrite zero_over.
    + intros NI. apply contains_false with (coeffs := []) in NI.
      unfold temperature_to_volt_neg_leg, temperature_to_seebeck_neg_leg.
      cbn -[fle Qcdiv _polyval]. rewrite NI. split; reflexivity.
  - split; [reflexivity|]. split; [reflexivity|]. split.
    + intros I. apply contains_true with (coeffs := []) in I.
      unfold temperature_to_volt_neg_leg, temperature_to_seebeck_neg_leg.
      cbn -[fle Qcdiv _polyval]. rewrite I. cbn -[Qcdiv _polyval lit].
      rewrite !zero_polynomial by (vm_compute; reflexivity).
      now rewrite zero_over.
    + intros NI. apply contains_false with (coeffs := []) in NI.
      unfold temperature_to_volt_neg_leg, temperature_to_seebeck_neg_leg.
      cbn -[fle Qcdiv _polyval]. rewrite NI. split; reflexivity.
Qed.

(** ** The instances of the registry *)

Lemma full_model_raises_out_of_range (self : ThermocoupleType) (m : method)
    (a b : float) (e : exception) :
  supports_every_quantity self = true ->
  call m self a b = Raise e ->
  exists x, e = ValueError (out_of_range_message x (_name self)).
Proof.
  unfold supports_every_quantity, tables_of. simpl.
  rewrite !andb_true_iff. intros (S & D & VP & VN & SP & SN & _).
  destruct m; simpl; intros R.
  - apply temperature_to_voltage_Raise in R. destruct R as [_ ->]. eauto.
  - apply voltage_to_temperature_Raise in R. destruct R as [_ ->]. eauto.
  - unfold temperature_to_seebeck in R.
    destruct (_temp_to_seebeck self) as [|en rest]; [discriminate S|].
    eexists. eapply select_then_raises; [|exact R]. discriminate.
  - unfold temperature_to_dsdt in R.
    destruct (_temp_to_dsdt self) as [|en rest]; [discriminate D|].
    eexists. eapply select_then_raises; [|exact R]. discriminate.
  - unfold temperature_to_volt_pos_leg in R.
    destruct (_temp_to_microvolt_pos_leg self) as [[|en rest]|];
      try discriminate VP.
    eexists. eapply select_then_raises; [|exact R]. discriminate.
  - unfold temperature_to_volt_neg_leg in R.
    destruct (_temp_to_microvolt_neg_leg self) as [[|en rest]|];
      try discriminate VN.
    eexists. eapply select_then_raises; [|exact R]. discriminate.
  - unfold temperature_to_seebeck_pos_leg in R.
    destruct (_temp_to_seebeck_pos_leg self) as [[|en rest]|];
      try discriminate SP.
    eexists. eapply select_then_raises; [|exact R]. discriminate.
  - unfold temperature_to_seebeck_neg_leg in R.
    destruct (_temp_to_seebeck_neg_leg self) as [[|en rest]|];
      try discriminate SN.
    eexists. eapply select_then_raises; [|exact R]. discriminate.
  - rewrite with_reference_unfold in R.
    destruct (temperature_to_voltage self b) as [v_ref|e'] eqn:F; simpl in R.
    + apply voltage_to_temperature_Raise in R. destruct R as [_ ->]. eauto.
    + injection R as <-. apply temperature_to_voltage_Raise in F.
      destruct F as [_ ->]. eauto.
Qed.

(** The six instances whose tables are available hold every optional
    table, so none of their public methods ever raises
    [NotImplementedError]: an exception they raise is the out-of-range
    [ValueError]. *)
Theorem available_instances_never_unsupported (tc : ThermocoupleType)
    (m : method) (a b : float) (e : exception) :
  In tc available_instances ->
  call m tc a b = Raise e ->
  supports_every_quantity tc = true /\
  (forall msg, e <> NotImplementedError msg) /\
  exists x, e = ValueError (out_of_range_message x (_name tc)).
Proof.
  intros I R.
  assert (S : supports_every_quantity tc = true).
  { unfold available_instances in I. simpl in I.
    repeat (destruct I as [<-|I]; [vm_compute; reflexivity|]). destruct I. }
  destruct (full_model_raises_out_of_range tc m a b S R) as [x ->].
  repeat split; eauto. discriminate.
Qed.

Lemma available_instances_never_unsupported_witness :
  supports_every_quantity TYPE_T = true /\
  (forall msg, ValueError (out_of_range_message (lit 500) "T")
               <> NotImplementedError msg) /\
  exists x, ValueError (out_of_range_message (lit 500) "T")
            = ValueError (out_of_range_message x (_name TYPE_T)).
Proof.
  apply (@available_instances_never_unsupported TYPE_T
           m_temperature_to_seebeck_pos_leg (lit 500) (lit 0)).
  - simpl. tauto.
  - apply result_eqb_true. vm_compute. reflexivity.
Defined.

(** In every table of the six available instances each interval has its
    lower bound at or below its upper bound, and the intervals, in
    declared order, touch or overlap: no table is empty and none has a gap
    inside its domain. *)
Theorem available_tables_are_connected :
  Forall (fun tc => Forall (fun t => connected t = true) (tables_of tc))
         available_instances.
Proof.
  unfold available_instances.
  repeat (apply Forall_cons;
          [unfold tables_of;
           repeat (apply Forall_cons; [vm_compute; reflexivity|]);
           apply Forall_nil|]).
  apply Forall_nil.
Qed.

(** ** What the conversions read of a model *)

(** The three conversions between temperature and voltage read only the
    name, the forward and inverse tables and the forward correction
    function: two models that agree on these give the same results,
    whatever their optional tables and other correction functions. *)
Theorem conversions_ignore_optional_data (self self' : ThermocoupleType)
    (a b : float) :
  _name self = _name self' ->
  _temp_to_microvolt self = _temp_to_microvolt self' ->
  _microvolt_to_temp self = _microvolt_to_temp self' ->
  _microvolt_expo_function self = _microvolt_expo_function self' ->
  temperature_to_voltage self a = temperature_to_voltage self' a /\
  voltage_to_temperature self a = voltage_to_temperature self' a /\
  voltage_to_temperature_with_reference self a b =
  voltage_to_temperature_with_reference self' a b.
Proof.
  intros N F I C.
  assert (TV : forall t, temperature_to_voltage self t
                         = temperature_to_voltage self' t).
  { intros t. unfold temperature_to_voltage.
    now rewrite (select_coeffs_name self self'), F, C. }
  assert (VT : forall v, voltage_to_temperature self v
                         = voltage_to_temperature self' v).
  { intros v. unfold voltage_to_temperature. simpl.
    now rewrite (select_coeffs_name self self'), I. }
  repeat split; auto.
  rewrite !with_reference_unfold, TV.
  destruct (temperature_to_voltage self' b); simpl; auto.
Qed.

Lemma conversions_ignore_optional_data_witness :
  temperature_to_voltage TYPE_B (lit 500) =
  temperature_to_voltage
    (__init__ "B" B_TEMP_TO_MICROVOLT B_MICROVOLT_TO_TEMP
       None None None None None None None None None None) (lit 500) /\
  voltage_to_temperature TYPE_B (lit 500) =
  voltage_to_temperature
    (__init__ "B" B_TEMP_TO_MICROVOLT B_MICROVOLT_TO_TEMP
       None None None None None None None None None None) (lit 500) /\
  voltage_to_temperature_with_reference TYPE_B (lit 500) (lit 20) =
  voltage_to_temperature_with_reference
    (__init__ "B" B_TEMP_TO_MICROVOLT B_MICROVOLT_TO_TEMP
       None None None None None None None None None None) (lit 500) (lit 20).
Proof.
  apply (@conversions_ignore_optional_data TYPE_B
           (__init__ "B" B_TEMP_TO_MICROVOLT B_MICROVOLT_TO_TEMP
              None None None None None None None None None None)
           (lit 500) (lit 20)); reflexivity.
Defined.

(** ** The convenience functions *)

Section ConvenienceFacts.

Variables type_e type_k : type_module.
Variable type_k_expo : type_k_functions.

Local Notation "'types'" := (THERMOCOUPLE_TYPES type_e type_k type_k_expo).
Local Notation "'get'" := (get_thermocouple type_e type_k type_k_expo).

Lemma get_thermocouple_found (tc_type : string) (tc : ThermocoupleType) :
  dict_get types (upper tc_type) = Some tc -> get tc_type = Return tc.
Proof. unfold get_thermocouple. now intros ->. Qed.

Lemma get_thermocouple_not_found (tc_type : string) :
  ~ In (upper tc_type) type_codes ->
  get tc_type =
  Raise (ValueError (not_supported_message (upper tc_type)
                       "B, E, J, K, N, R, S, T")).
Proof.
  intros NI. unfold get_thermocouple.
  apply registry_lookup_None with (type_e := type_e) (type_k := type_k)
    (type_k_expo := type_k_expo) in NI.
  rewrite NI. now rewrite available_types.
Qed.


End ConvenienceFacts.

